(** * Anthropic Messages -> Kiro payload converters

    A shallow embedding of [kiro_gateway/anthropic_converters.py] together
    with the pydantic models of [kiro_gateway/anthropic_models.py] it reads.

    Python values are embedded as [PyVal]; dictionaries are finite maps with
    string keys, lists are lists, exceptions are an explicit [result] type.
    The payload builder is given twice: as a function of the request, and
    over a store of mutable objects, to state what it does to the caller's
    data.  Definitions come first, then the properties, then the properties
    at sample requests. *)

From Stdlib Require Import Ascii String.
From stdpp Require Import base option list gmap strings pretty.

Set Warnings "-register-all,-clear-no-such-hyp".

(** ** Pydantic models (anthropic_models.py) *)

(** [TextContent], [ImageSource], [ImageContent]: leaf blocks. *)
Record TextContent := { text : string }.
Record ImageSource := { media_type : string; data : string }.
Record ImageContent := { source : ImageSource }.

(** [Union[TextContent, ImageContent]], the element type of a list-form
    tool-result payload. *)
Inductive ResultBlock :=
| RText (t : TextContent)
| RImage (i : ImageContent).

(** [Union[str, List[Union[TextContent, ImageContent]]]]. *)
Inductive ResultContent :=
| RStr (s : string)
| RBlocks (blocks : list ResultBlock).

(** Python values as the converters see them ([Any]): plain JSON-like data
    and instances of the content-block models.  [ToolUseContent.input] is a
    [Dict[str, Any]], which ties the two types together.  Floating-point
    numbers, which the converters never inspect, are left out. *)
Inductive PyVal :=
| PNone
| PBool (b : bool)
| PInt (n : Z)
| PStr (s : string)
| PList (items : list PyVal)
| PDict (entries : gmap string PyVal)
| PObj (block : ContentBlock)
with ContentBlock :=
| BText (t : TextContent)
| BImage (i : ImageContent)
| BToolUse (id name : string) (input : gmap string PyVal)
| BToolResult (tool_use_id : string) (payload : ResultContent)
              (is_error : option bool).

(** [role: Literal["user", "assistant"]]. *)
Inductive Role := user | assistant.

(** [content: Union[str, List[ContentBlock]]]. *)
Inductive MsgContent :=
| CStr (s : string)
| CBlocks (blocks : list ContentBlock).

Record AnthropicMessage := { role : Role; content : MsgContent }.

(** [AnthropicToolInputSchema]: three declared fields, and whatever other
    keys the schema carried ([extra = allow]). *)
Record AnthropicToolInputSchema := {
  schema_type : string;
  properties : option (gmap string PyVal);
  required : option (list string);
  schema_extra : gmap string PyVal
}.

Record AnthropicTool := {
  name : string;
  description : string;
  input_schema : AnthropicToolInputSchema
}.

(** [system: Optional[Union[str, List[TextContent]]]]. *)
Inductive SystemPrompt :=
| SysStr (s : string)
| SysBlocks (blocks : list TextContent).

(** [AnthropicMessagesRequest], restricted to the fields the converter reads
    plus the integer and boolean generation parameters. *)
Record AnthropicMessagesRequest := {
  model : string;
  messages : list AnthropicMessage;
  max_tokens : Z;
  system : option SystemPrompt;
  stream : bool;
  tools : option (list AnthropicTool)
}.

(** ** Python run-time notions *)

Inductive PyExc :=
| ValueError (msg : string)
| TypeError (msg : string)
| IndexError (msg : string).

Inductive result (A : Type) :=
| Ok (a : A)
| Raise (e : PyExc).
Arguments Ok {A} a.
Arguments Raise {A} e.

Global Instance result_ret : MRet result := @Ok.
Global Instance result_bind : MBind result := λ A B f m,
  match m with Ok a => f a | Raise e => Raise e end.
Global Instance result_fmap : FMap result := λ A B f m,
  match m with Ok a => Ok (f a) | Raise e => Raise e end.

(** The values of a typed object seen as [Any]. *)
Definition py_of_result_block (b : ResultBlock) : PyVal :=
  match b with
  | RText t => PObj (BText t)
  | RImage i => PObj (BImage i)
  end.

Definition py_of_result_content (c : ResultContent) : PyVal :=
  match c with
  | RStr s => PStr s
  | RBlocks l => PList (py_of_result_block <$> l)
  end.

Definition py_of_content (c : MsgContent) : PyVal :=
  match c with
  | CStr s => PStr s
  | CBlocks l => PList (PObj <$> l)
  end.

Definition py_of_system (s : SystemPrompt) : PyVal :=
  match s with
  | SysStr s => PStr s
  | SysBlocks l => PList ((λ t, PObj (BText t)) <$> l)
  end.

(** Truth value of a Python value ([if v:]).  Model instances define neither
    [__bool__] nor [__len__] and are true. *)
Definition truthy (v : PyVal) : bool :=
  match v with
  | PNone => false
  | PBool b => b
  | PInt n => negb (n =? 0)%Z
  | PStr s => negb (String.eqb s "")
  | PList l => negb (bool_decide (l = []))
  | PDict d => negb (bool_decide (d = ∅))
  | PObj _ => true
  end.

Definition str_truthy (s : string) : bool := negb (String.eqb s "").
Definition list_truthy {A} (l : list A) : bool :=
  match l with [] => false | _ :: _ => true end.

(** [v == s] for a string literal [s]. *)
Definition py_eq_str (v : option PyVal) (s : string) : bool :=
  match v with
  | Some (PStr s') => String.eqb s' s
  | _ => false
  end.

(** [type(v).__name__]. *)
Definition py_type_name (v : PyVal) : string :=
  match v with
  | PNone => "NoneType"
  | PBool _ => "bool"
  | PInt _ => "int"
  | PStr _ => "str"
  | PList _ => "list"
  | PDict _ => "dict"
  | PObj (BText _) => "TextContent"
  | PObj (BImage _) => "ImageContent"
  | PObj (BToolUse _ _ _) => "ToolUseContent"
  | PObj (BToolResult _ _ _) => "ToolResultContent"
  end.

(** What [str.join] raises at item [i] of its argument when that item is not
    a [str]: the item's position in decimal and the name of its type. *)
Definition join_error (i : nat) (item : PyVal) : PyExc :=
  TypeError ("sequence item " +:+ pretty i +:+ ": expected str instance, "
             +:+ py_type_name item +:+ " found").

(** The two-character string ["\n\n"]. *)
Definition nl2 : string := String "010"%char (String "010"%char EmptyString).

Section Converters.

(** Collaborators that are not part of the two modules: Python's [repr] of a
    value that is not a string, and [config.get_internal_model_id]. *)
Variable py_repr : PyVal → string.
Variable get_internal_model_id : string → string.

(** [str(v)]: a string is its own [str]. *)
Definition py_str (v : PyVal) : string :=
  match v with
  | PStr s => s
  | _ => py_repr v
  end.

(** [sep.join(parts)] with [sep = ""]: every item has to be a [str]; the
    first one that is not stops the call with [join_error] at its position.
    [i] is the position of the head of [parts] in the argument of [join]. *)
Fixpoint str_join_from (i : nat) (parts : list PyVal) : result string :=
  match parts with
  | [] => Ok ""
  | PStr s :: rest => (λ t, s +:+ t) <$> str_join_from (S i) rest
  | item :: _ => Raise (join_error i item)
  end.

Definition str_join (parts : list PyVal) : result string :=
  str_join_from 0 parts.

(** ** Content extractor *)

(** One turn of the loop of [extract_text_from_content]: what, if anything,
    is appended to [text_parts].  A [dict] has no attribute [text], so its
    [elif hasattr(block, "text")] arm never runs; every model instance has a
    [type] attribute, and only [TextContent] has it equal to ["text"]. *)
Definition text_part (block : PyVal) : option PyVal :=
  match block with
  | PDict d =>
      if py_eq_str (d !! "type") "text"
      then Some (default (PStr "") (d !! "text"))
      else None
  | PObj (BText t) => Some (PStr (text t))
  | _ => None
  end.

Definition extract_text_from_content (content : PyVal) : result string :=
  match content with
  | PStr s => Ok s
  | PList blocks => str_join (omap text_part blocks)
  | _ => Ok (py_str content)
  end.

Definition tool_use_entry (block : PyVal) : option PyVal :=
  match block with
  | PDict d =>
      if py_eq_str (d !! "type") "tool_use"
      then Some (PDict {[ "name" := default (PStr "") (d !! "name");
                          "input" := default (PDict ∅) (d !! "input");
                          "toolUseId" := default (PStr "") (d !! "id") ]})
      else None
  | PObj (BToolUse id name input) =>
      Some (PDict {[ "name" := PStr name;
                     "input" := PDict input;
                     "toolUseId" := PStr id ]})
  | _ => None
  end.

Definition extract_tool_uses_from_content (content : PyVal) : list PyVal :=
  match content with
  | PList blocks => omap tool_use_entry blocks
  | _ => []
  end.

(** [result_text] of both arms of [extract_tool_results_from_content]. *)
Definition result_text_of (result_content : PyVal) : result string :=
  match result_content with
  | PList _ => extract_text_from_content result_content
  | _ => Ok (py_str result_content)
  end.

Definition tool_result_record (result_text : string) (is_error : bool)
    (tool_use_id : PyVal) : PyVal :=
  PDict {[ "content" := PList [PDict {[ "text" := PStr result_text ]}];
           "status" := PStr (if is_error then "error" else "success");
           "toolUseId" := tool_use_id ]}.

(** One turn of the loop: [None] when the block is skipped, otherwise the
    record that is appended, or the exception raised while building it. *)
Definition tool_result_entry (block : PyVal) : option (result PyVal) :=
  match block with
  | PDict d =>
      if py_eq_str (d !! "type") "tool_result"
      then Some (
        let result_content := default (PStr "") (d !! "content") in
        result_text ← result_text_of result_content;
        mret (tool_result_record result_text
                (truthy (default PNone (d !! "is_error")))
                (default (PStr "") (d !! "tool_use_id"))))
      else None
  | PObj (BToolResult tool_use_id payload is_error) =>
      Some (
        let result_content := py_of_result_content payload in
        result_text ← result_text_of result_content;
        mret (tool_result_record result_text
                (truthy (from_option PBool PNone is_error))
                (PStr tool_use_id)))
  | _ => None
  end.

Fixpoint tool_results_loop (blocks : list PyVal) : result (list PyVal) :=
  match blocks with
  | [] => Ok []
  | block :: rest =>
      match tool_result_entry block with
      | Some entry =>
          r ← entry; rs ← tool_results_loop rest; mret (r :: rs)
      | None => tool_results_loop rest
      end
  end.

Definition extract_tool_results_from_content (content : PyVal)
    : result (list PyVal) :=
  match content with
  | PList blocks => tool_results_loop blocks
  | _ => Ok []
  end.

(** ** History builder *)

(** The body of the loop of [build_kiro_history_from_anthropic]. *)
Definition history_entry (model_id : string) (msg : AnthropicMessage)
    : result PyVal :=
  match role msg with
  | user =>
      text_content ← extract_text_from_content (py_of_content (content msg));
      let user_input : gmap string PyVal :=
        {[ "content" := PStr text_content;
           "modelId" := PStr model_id;
           "origin" := PStr "AI_EDITOR" ]} in
      tool_results ←
        extract_tool_results_from_content (py_of_content (content msg));
      let user_input :=
        if list_truthy tool_results
        then <["userInputMessageContext" :=
                 PDict {[ "toolResults" := PList tool_results ]}]> user_input
        else user_input in
      mret (PDict {[ "userInputMessage" := PDict user_input ]})
  | assistant =>
      text_content ← extract_text_from_content (py_of_content (content msg));
      let assistant_response : gmap string PyVal :=
        {[ "content" := PStr text_content ]} in
      let tool_uses :=
        extract_tool_uses_from_content (py_of_content (content msg)) in
      let assistant_response :=
        if list_truthy tool_uses
        then <["toolUses" := PList tool_uses]> assistant_response
        else assistant_response in
      mret (PDict {[ "assistantResponseMessage" := PDict assistant_response ]})
  end.

Fixpoint build_kiro_history_from_anthropic (msgs : list AnthropicMessage)
    (model_id : string) : result (list PyVal) :=
  match msgs with
  | [] => Ok []
  | msg :: rest =>
      entry ← history_entry model_id msg;
      entries ← build_kiro_history_from_anthropic rest model_id;
      mret (entry :: entries)
  end.

(** ** Tool definitions *)

Definition is_none (v : PyVal) : bool :=
  match v with PNone => true | _ => false end.

Definition set_if_some (k : string) (v : option PyVal)
    (d : gmap string PyVal) : gmap string PyVal :=
  match v with
  | Some x => <[k := x]> d
  | None => d
  end.

(** The extra keys of a schema.  A key with the name of a declared field is
    that field and never an extra key. *)
Definition extra_fields (s : AnthropicToolInputSchema) : gmap string PyVal :=
  delete "type" (delete "properties" (delete "required" (schema_extra s))).

(** [input_schema.model_dump(exclude_none=True)], pydantic's conversion of
    the model to a [dict]: the declared fields and the extra keys, without
    those whose value is [None]. *)
Definition model_dump_exclude_none (s : AnthropicToolInputSchema)
    : gmap string PyVal :=
  <["type" := PStr (schema_type s)]>
    (set_if_some "properties" (PDict <$> properties s)
      (set_if_some "required" ((λ r, PList (PStr <$> r)) <$> required s)
        (filter (λ kv, is_none kv.2 = false) (extra_fields s)))).

(** The body of the loop of [convert_anthropic_tools_to_kiro].  The
    [input_schema] of an [AnthropicTool] is a pydantic model, so
    [hasattr(tool.input_schema, "model_dump")] holds. *)
Definition tool_specification (tool : AnthropicTool) : PyVal :=
  let input_schema := model_dump_exclude_none (input_schema tool) in
  PDict {[ "toolSpecification" :=
    PDict {[ "name" := PStr (name tool);
             "description" := PStr (description tool);
             "inputSchema" := PDict {[ "json" := PDict input_schema ]} ]} ]}.

Definition convert_anthropic_tools_to_kiro
    (tools : option (list AnthropicTool)) : option (list PyVal) :=
  match tools with
  | None | Some [] => None
  | Some tools => Some (tool_specification <$> tools)
  end.

(** ** Payload builder *)

(** Lines 246-251: the system prompt as plain text. *)
Definition resolve_system_prompt (sys : option SystemPrompt) : result string :=
  match sys with
  | Some sys =>
      if truthy (py_of_system sys)
      then match sys with
           | SysStr s => Ok s
           | SysBlocks _ => extract_text_from_content (py_of_system sys)
           end
      else Ok ""
  | None => Ok ""
  end.

(** Line 255: [messages[:-1] if len(messages) > 1 else []]. *)
Definition split_history (msgs : list AnthropicMessage)
    : list AnthropicMessage :=
  if bool_decide (1 < length msgs) then take (length msgs - 1) msgs else [].

(** Lines 258-267, on the value of [history_messages]. *)
Definition inject_system_prompt (system_prompt : string)
    (history_messages : list AnthropicMessage)
    : result (list AnthropicMessage) :=
  if str_truthy system_prompt && list_truthy history_messages
  then match history_messages !! 0%nat with
       | Some first_msg =>
           match role first_msg with
           | user =>
               original_content ←
                 extract_text_from_content (py_of_content (content first_msg));
               let first_msg :=
                 {| role := role first_msg;
                    content := CStr (system_prompt +:+ nl2 +:+ original_content)
                 |} in
               mret (<[0%nat := first_msg]> history_messages)
           | assistant => mret history_messages
           end
       | None => Raise (IndexError "list index out of range")
       end
  else mret history_messages.

(** Lines 271-336: the current turn and the final payload. *)
Definition assemble_payload (request_data : AnthropicMessagesRequest)
    (model_id system_prompt : string) (history : list PyVal)
    (current_message : AnthropicMessage)
    (conversation_id profile_arn : string) : result PyVal :=
  current_content ←
    extract_text_from_content (py_of_content (content current_message));
  let current_content :=
    if str_truthy system_prompt && negb (list_truthy history)
    then system_prompt +:+ nl2 +:+ current_content
    else current_content in
  let '(history, current_content) :=
    match role current_message with
    | assistant =>
        (history ++
           [PDict {[ "assistantResponseMessage" :=
                       PDict {[ "content" := PStr current_content ]} ]}],
         "Continue")
    | user => (history, current_content)
    end in
  let current_content :=
    if str_truthy current_content then current_content else "Continue" in
  let user_input_message : gmap string PyVal :=
    {[ "content" := PStr current_content;
       "modelId" := PStr model_id;
       "origin" := PStr "AI_EDITOR" ]} in
  let user_input_context : gmap string PyVal := ∅ in
  let user_input_context :=
    if from_option list_truthy false (tools request_data)
    then match convert_anthropic_tools_to_kiro (tools request_data) with
         | Some kiro_tools =>
             if list_truthy kiro_tools
             then <["tools" := PList kiro_tools]> user_input_context
             else user_input_context
         | None => user_input_context
         end
    else user_input_context in
  user_input_context ←
    match role current_message with
    | user =>
        tool_results ←
          extract_tool_results_from_content
            (py_of_content (content current_message));
        mret (if list_truthy tool_results
              then <["toolResults" := PList tool_results]> user_input_context
              else user_input_context)
    | assistant => mret user_input_context
    end;
  let user_input_message :=
    if bool_decide (user_input_context = ∅)
    then user_input_message
    else <["userInputMessageContext" := PDict user_input_context]>
           user_input_message in
  (* payload["conversationState"]["history"] = history updates the inner
     dictionary, which is built here before it is wrapped *)
  let conversation_state : gmap string PyVal :=
    {[ "chatTriggerType" := PStr "MANUAL";
       "conversationId" := PStr conversation_id;
       "currentMessage" :=
         PDict {[ "userInputMessage" := PDict user_input_message ]} ]} in
  let conversation_state :=
    if list_truthy history
    then <["history" := PList history]> conversation_state
    else conversation_state in
  let payload : gmap string PyVal :=
    {[ "conversationState" := PDict conversation_state ]} in
  let payload :=
    if str_truthy profile_arn
    then <["profileArn" := PStr profile_arn]> payload
    else payload in
  mret (PDict payload).

Definition build_kiro_payload_from_anthropic
    (request_data : AnthropicMessagesRequest)
    (conversation_id profile_arn : string) : result PyVal :=
  if negb (list_truthy (messages request_data))
  then Raise (ValueError "No messages provided")
  else
    let model_id := get_internal_model_id (model request_data) in
    system_prompt ← resolve_system_prompt (system request_data);
    let msgs := messages request_data in
    let history_messages := split_history msgs in
    history_messages ← inject_system_prompt system_prompt history_messages;
    history ← build_kiro_history_from_anthropic history_messages model_id;
    match last msgs with
    | Some current_message =>
        assemble_payload request_data model_id system_prompt history
          current_message conversation_id profile_arn
    | None => Raise (IndexError "list index out of range")
    end.

(** ** The payload builder over a store of objects

    The caller's request holds a reference to a list object whose items are
    references to message objects.  Lines 254-267 create lists and a message
    and assign to a list item; this reading keeps the store explicit, so that
    an assignment through an alias of the caller's list would show. *)

Definition loc := positive.

Inductive PyObj :=
| OList (items : list loc)
| OMessage (msg : AnthropicMessage).

(** A computation returns a value or raises, and leaves a store behind in
    both cases. *)
Definition HeapM (A : Type) : Type := gmap loc PyObj → result A * gmap loc PyObj.

Definition hret {A} (a : A) : HeapM A := λ h, (Ok a, h).
Definition hraise {A} (e : PyExc) : HeapM A := λ h, (Raise e, h).
Definition hlift {A} (r : result A) : HeapM A := λ h, (r, h).
Definition hbind {A B} (m : HeapM A) (f : A → HeapM B) : HeapM B := λ h,
  match m h with
  | (Ok a, h') => f a h'
  | (Raise e, h') => (Raise e, h')
  end.

Notation "'let!' x ':=' m 'in' k" := (hbind m (λ x, k))
  (at level 10, x pattern, m at level 100, k at level 200,
   only parsing).

(** A new object gets a reference that is not in use. *)
Definition alloc (o : PyObj) : HeapM loc := λ h,
  let l := fresh (dom h) in (Ok l, <[l := o]> h).

Definition load_list (l : loc) : HeapM (list loc) := λ h,
  match h !! l with
  | Some (OList items) => (Ok items, h)
  | _ => (Raise (TypeError "not a list"), h)
  end.

Definition load_message (l : loc) : HeapM AnthropicMessage := λ h,
  match h !! l with
  | Some (OMessage msg) => (Ok msg, h)
  | _ => (Raise (TypeError "not a message"), h)
  end.

(** [lst[i] = x]: updates the list object in place. *)
Definition list_setitem (l : loc) (i : nat) (x : loc) : HeapM unit := λ h,
  match h !! l with
  | Some (OList items) =>
      if bool_decide (i < length items)
      then (Ok (), <[l := OList (<[i := x]> items)]> h)
      else (Raise (IndexError "list assignment index out of range"), h)
  | _ => (Raise (TypeError "not a list"), h)
  end.

Fixpoint load_messages (ls : list loc) : HeapM (list AnthropicMessage) :=
  match ls with
  | [] => hret []
  | l :: ls =>
      let! msg := load_message l in
      let! msgs := load_messages ls in
      hret (msg :: msgs)
  end.

(** Lines 258-267 on the list object [history_messages]. *)
Definition inject_system_prompt_on_heap (system_prompt : string)
    (history_messages : loc) : HeapM unit :=
  let! history_items := load_list history_messages in
  if str_truthy system_prompt && list_truthy history_items
  then match history_items !! 0%nat with
       | Some first_ref =>
           let! first_msg := load_message first_ref in
           match role first_msg with
           | user =>
               let! original_content :=
                 hlift (extract_text_from_content
                          (py_of_content (content first_msg))) in
               (* first_msg = AnthropicMessage(...) *)
               let! first_ref :=
                 alloc (OMessage
                   {| role := role first_msg;
                      content :=
                        CStr (system_prompt +:+ nl2 +:+ original_content) |}) in
               (* history_messages[0] = first_msg *)
               list_setitem history_messages 0 first_ref
           | assistant => hret ()
           end
       | None => hraise (IndexError "list index out of range")
       end
  else hret ().

(** [build_kiro_payload_from_anthropic] with [request_data.messages] given by
    reference. *)
Definition build_kiro_payload_on_heap (request_data : AnthropicMessagesRequest)
    (request_messages : loc) (conversation_id profile_arn : string)
    : HeapM PyVal :=
  let! items := load_list request_messages in
  if negb (list_truthy items)
  then hraise (ValueError "No messages provided")
  else
    let model_id := get_internal_model_id (model request_data) in
    let! system_prompt := hlift (resolve_system_prompt (system request_data)) in
    (* messages = list(request_data.messages) *)
    let! msgs := alloc (OList items) in
    (* history_messages = messages[:-1] if len(messages) > 1 else [] *)
    let! items := load_list msgs in
    let! history_messages :=
      alloc (OList (if bool_decide (1 < length items)
                    then take (length items - 1) items else [])) in
    let! _ := inject_system_prompt_on_heap system_prompt history_messages in
    (* build_kiro_history_from_anthropic(history_messages, model_id) *)
    let! history_items := load_list history_messages in
    let! history_msgs := load_messages history_items in
    let! history :=
      hlift (build_kiro_history_from_anthropic history_msgs model_id) in
    (* current_message = messages[-1] *)
    let! items := load_list msgs in
    match last items with
    | Some current_ref =>
        let! current_message := load_message current_ref in
        hlift (assemble_payload request_data model_id system_prompt history
                 current_message conversation_id profile_arn)
    | None => hraise (IndexError "list index out of range")
    end.

(** The store holds the message list [msgs] at [l]. *)
Definition holds_messages (h : gmap loc PyObj) (l : loc)
    (msgs : list AnthropicMessage) : Prop :=
  ∃ items, h !! l = Some (OList items) ∧
           Forall2 (λ r m, h !! r = Some (OMessage m)) items msgs.

(** ** Vocabulary of the properties *)

(** The tag of each block model (the default of its [type] field). *)
Definition block_type (b : ContentBlock) : string :=
  match b with
  | BText _ => "text"
  | BImage _ => "image"
  | BToolUse _ _ _ => "tool_use"
  | BToolResult _ _ _ => "tool_result"
  end.

(** A block carries tag [tag], in the key-value or in the typed
    representation. *)
Definition block_tagged (tag : string) (block : PyVal) : bool :=
  match block with
  | PDict d => py_eq_str (d !! "type") tag
  | PObj b => String.eqb (block_type b) tag
  | _ => false
  end.

(** The [text] field of a block; an absent key reads as the empty string. *)
Definition block_text (block : PyVal) : PyVal :=
  match block with
  | PDict d => default (PStr "") (d !! "text")
  | PObj (BText t) => PStr (text t)
  | _ => PStr ""
  end.

(** Payload, error flag and call id of a [tool_result] block; an absent error
    flag reads as [None]. *)
Definition block_payload (block : PyVal) : PyVal :=
  match block with
  | PDict d => default (PStr "") (d !! "content")
  | PObj (BToolResult _ payload _) => py_of_result_content payload
  | _ => PStr ""
  end.

Definition block_error_flag (block : PyVal) : PyVal :=
  match block with
  | PDict d => default PNone (d !! "is_error")
  | PObj (BToolResult _ _ (Some b)) => PBool b
  | _ => PNone
  end.

Definition block_call_id (block : PyVal) : PyVal :=
  match block with
  | PDict d => default (PStr "") (d !! "tool_use_id")
  | PObj (BToolResult tool_use_id _ _) => PStr tool_use_id
  | _ => PStr ""
  end.

(** Reading a payload: [py_path [k1; ..; kn] v] is [v[k1]...[kn]]. *)
Definition py_get (k : string) (v : PyVal) : option PyVal :=
  match v with
  | PDict d => d !! k
  | _ => None
  end.

Fixpoint py_path (ks : list string) (v : PyVal) : option PyVal :=
  match ks with
  | [] => Some v
  | k :: ks =>
      match py_get k v with
      | Some w => py_path ks w
      | None => None
      end
  end.

Definition current_user_input (payload : PyVal) : option PyVal :=
  py_path ["conversationState"; "currentMessage"; "userInputMessage"] payload.

Definition payload_history (payload : PyVal) : list PyVal :=
  match py_path ["conversationState"; "history"] payload with
  | Some (PList h) => h
  | _ => []
  end.

(** The text of typed content, by the rule of the specification. *)
Definition typed_block_text (b : ContentBlock) : option string :=
  match b with
  | BText t => Some (text t)
  | _ => None
  end.

Definition content_text (c : MsgContent) : string :=
  match c with
  | CStr s => s
  | CBlocks l => String.concat "" (omap typed_block_text l)
  end.

Definition payload_text (p : ResultContent) : string :=
  match p with
  | RStr s => s
  | RBlocks l =>
      String.concat ""
        (omap (λ b, match b with RText t => Some (text t) | _ => None end) l)
  end.

Definition has_tool_result (c : MsgContent) : bool :=
  match c with
  | CStr _ => false
  | CBlocks l => bool_decide (Exists (λ b, block_type b = "tool_result") l)
  end.

(** The tool results of typed content, by the rule of the specification. *)
Definition typed_tool_result (b : ContentBlock) : option PyVal :=
  match b with
  | BToolResult tool_use_id payload is_error =>
      Some (PDict
        {[ "content" := PList [PDict {[ "text" := PStr (payload_text payload) ]}];
           "status" :=
             PStr (if bool_decide (is_error = Some true)
                   then "error" else "success");
           "toolUseId" := PStr tool_use_id ]})
  | _ => None
  end.

Definition typed_tool_results (c : MsgContent) : list PyVal :=
  match c with
  | CStr _ => []
  | CBlocks l => omap typed_tool_result l
  end.

(** [if b: d[k] = v]. *)
Definition cond_insert (b : bool) (k : string) (v : PyVal)
    (d : gmap string PyVal) : gmap string PyVal :=
  if b then <[k := v]> d else d.

(** The resolved current text: the text of the last message, with the system
    prompt in front when there is one and the built history is empty. *)
Definition resolved_text (system_prompt : string) (history : list PyVal)
    (current_message : AnthropicMessage) : string :=
  if str_truthy system_prompt && negb (list_truthy history)
  then system_prompt +:+ nl2 +:+ content_text (content current_message)
  else content_text (content current_message).

(** The schema as an object: every declared field that is set and every
    extra key, with their values. *)
Definition schema_object (s : AnthropicToolInputSchema) : gmap string PyVal :=
  <["type" := PStr (schema_type s)]>
    (set_if_some "properties" (PDict <$> properties s)
      (set_if_some "required" ((λ r, PList (PStr <$> r)) <$> required s)
        (extra_fields s))).

(** History, current content and context object that the builder ends with,
    written over the typed request. *)
Definition folded_history (system_prompt : string) (history : list PyVal)
    (current_message : AnthropicMessage) : list PyVal :=
  match role current_message with
  | assistant =>
      history ++
        [PDict {[ "assistantResponseMessage" :=
           PDict {[ "content" :=
             PStr (resolved_text system_prompt history current_message) ]} ]}]
  | user => history
  end.

Definition final_content (system_prompt : string) (history : list PyVal)
    (current_message : AnthropicMessage) : string :=
  match role current_message with
  | assistant => "Continue"
  | user =>
      if str_truthy (resolved_text system_prompt history current_message)
      then resolved_text system_prompt history current_message
      else "Continue"
  end.

Definition current_context (request_data : AnthropicMessagesRequest)
    (current_message : AnthropicMessage) : gmap string PyVal :=
  cond_insert
    (match role current_message with
     | user => has_tool_result (content current_message)
     | assistant => false
     end)
    "toolResults" (PList (typed_tool_results (content current_message)))
    (cond_insert (from_option list_truthy false (tools request_data))
       "tools"
       (PList (tool_specification <$> default [] (tools request_data)))
       ∅).

(** Name, input and call id of a [tool_use] block; an absent key reads as
    the default of [block.get]. *)
Definition block_name (block : PyVal) : PyVal :=
  match block with
  | PDict d => default (PStr "") (d !! "name")
  | PObj (BToolUse _ name _) => PStr name
  | _ => PStr ""
  end.

Definition block_input (block : PyVal) : PyVal :=
  match block with
  | PDict d => default (PDict ∅) (d !! "input")
  | PObj (BToolUse _ _ input) => PDict input
  | _ => PDict ∅
  end.

Definition block_use_id (block : PyVal) : PyVal :=
  match block with
  | PDict d => default (PStr "") (d !! "id")
  | PObj (BToolUse id _ _) => PStr id
  | _ => PStr ""
  end.

(** A block tagged ["text"] whose [text] field is not a string. *)
Definition text_not_str (block : PyVal) : bool :=
  block_tagged "text" block &&
  match block_text block with PStr _ => false | _ => true end.

Definition has_tool_use (c : MsgContent) : bool :=
  match c with
  | CStr _ => false
  | CBlocks l => bool_decide (Exists (λ b, block_type b = "tool_use") l)
  end.

(** The key-value representation of the typed blocks: the fields of the
    models under their names, an [is_error] that is [None] being left out. *)
Definition dict_of_result_block (b : ResultBlock) : PyVal :=
  match b with
  | RText t => PDict {[ "type" := PStr "text"; "text" := PStr (text t) ]}
  | RImage i =>
      PDict {[ "type" := PStr "image";
               "source" := PDict
                 {[ "type" := PStr "base64";
                    "media_type" := PStr (media_type (source i));
                    "data" := PStr (data (source i)) ]} ]}
  end.

Definition dict_of_block (b : ContentBlock) : PyVal :=
  match b with
  | BText t => dict_of_result_block (RText t)
  | BImage i => dict_of_result_block (RImage i)
  | BToolUse id name input =>
      PDict {[ "type" := PStr "tool_use"; "id" := PStr id;
               "name" := PStr name; "input" := PDict input ]}
  | BToolResult tool_use_id payload is_error =>
      PDict (set_if_some "is_error" (PBool <$> is_error)
        {[ "type" := PStr "tool_result";
           "tool_use_id" := PStr tool_use_id;
           "content" :=
             match payload with
             | RStr s => PStr s
             | RBlocks l => PList (dict_of_result_block <$> l)
             end ]})
  end.

Definition dict_of_content (c : MsgContent) : PyVal :=
  match c with
  | CStr s => PStr s
  | CBlocks l => PList (dict_of_block <$> l)
  end.

(** The request with another system prompt. *)
Definition with_system (sys : option SystemPrompt)
    (request_data : AnthropicMessagesRequest) : AnthropicMessagesRequest :=
  {| model := model request_data; messages := messages request_data;
     max_tokens := max_tokens request_data; system := sys;
     stream := stream request_data; tools := tools request_data |}.

(** The key of a history entry, by role. *)
Definition entry_key (r : Role) : string :=
  match r with
  | user => "userInputMessage"
  | assistant => "assistantResponseMessage"
  end.

(** ** Sample requests and collaborators *)

Definition repr_stub (v : PyVal) : string := "<object>".
Definition same_model_id (external_model : string) : string := external_model.

Definition request_of (msgs : list AnthropicMessage)
    (sys : option SystemPrompt) (defs : option (list AnthropicTool))
    : AnthropicMessagesRequest :=
  {| model := "claude-sonnet-4"; messages := msgs; max_tokens := 4096;
     system := sys; stream := false; tools := defs |}.

Definition user_says (s : string) : AnthropicMessage :=
  {| role := user; content := CStr s |}.
Definition assistant_says (s : string) : AnthropicMessage :=
  {| role := assistant; content := CStr s |}.

(** [{"type": "object", "properties": {"q": {"type": "string"}},
      "required": ["q"]}] *)
Definition search_schema : AnthropicToolInputSchema :=
  {| schema_type := "object";
     properties := Some {[ "q" := PDict {[ "type" := PStr "string" ]} ]};
     required := Some ["q"];
     schema_extra := ∅ |}.

Definition search_tool : AnthropicTool :=
  {| name := "search"; description := "Search the web";
     input_schema := search_schema |}.

Definition search_call : ContentBlock :=
  BToolUse "t1" "search" {[ "q" := PStr "x" ]}.
Definition search_result : ContentBlock :=
  BToolResult "t1" (RStr "found") None.

(** A conversation of one user turn, with system prompt ["S"]. *)
Definition single_user_request : AnthropicMessagesRequest :=
  request_of [user_says "Hi"] (Some (SysStr "S")) None.

(** A conversation whose history starts with an assistant turn. *)
Definition assistant_first_request : AnthropicMessagesRequest :=
  request_of [assistant_says "A"; user_says "Hi"] (Some (SysStr "S")) None.

(** A conversation that ends on an assistant turn calling a tool. *)
Definition calling_assistant : AnthropicMessage :=
  {| role := assistant;
     content := CBlocks [BText {| text := "Hello" |}; search_call] |}.

Definition trailing_tool_use_request : AnthropicMessagesRequest :=
  request_of [user_says "Hi"; calling_assistant] None None.

(** Three turns, the first one of role [user]. *)
Definition three_turn_request : AnthropicMessagesRequest :=
  request_of [user_says "U"; assistant_says "A"; user_says "Hi"]
    (Some (SysStr "S")) None.

(** Three turns, the first one carrying a tool result. *)
Definition result_first : AnthropicMessage :=
  {| role := user;
     content := CBlocks [BText {| text := "U" |}; search_result] |}.

Definition result_first_request : AnthropicMessagesRequest :=
  request_of [result_first; assistant_says "A"; user_says "Hi"]
    (Some (SysStr "S")) None.

(** One user turn and one tool definition. *)
Definition tools_request : AnthropicMessagesRequest :=
  request_of [user_says "Hi"] None (Some [search_tool]).

(** [{"type": "object", "default": null}] *)
Definition nullable_schema : AnthropicToolInputSchema :=
  {| schema_type := "object"; properties := None; required := None;
     schema_extra := {[ "default" := PNone ]} |}.

Definition nullable_tool : AnthropicTool :=
  {| name := "lookup"; description := "Look a key up";
     input_schema := nullable_schema |}.

Definition nullable_tools_request : AnthropicMessagesRequest :=
  request_of [user_says "Hi"] None (Some [nullable_tool]).

(** Blocks in both representations. *)
Definition mixed_blocks : list PyVal :=
  [ PDict {[ "type" := PStr "text"; "text" := PStr "a" ]};
    PObj (BImage {| source := {| media_type := "image/png"; data := "AAAA" |} |});
    PDict {[ "type" := PStr "tool_result"; "tool_use_id" := PStr "t0";
             "content" := PStr "out"; "is_error" := PBool true ]};
    PObj (BText {| text := "b" |});
    PObj search_result ].

(** A store with a two-message conversation at reference 1. *)
Definition sample_store : gmap loc PyObj :=
  {[ 1%positive := OList [2%positive; 3%positive];
     2%positive := OMessage (user_says "U");
     3%positive := OMessage (user_says "Hi") ]}.

Definition two_turn_request : AnthropicMessagesRequest :=
  request_of [user_says "U"; user_says "Hi"] (Some (SysStr "S")) None.

(** Key-value blocks: a tool call without [input], and a text block whose
    [text] is [None]. *)
Definition bare_call : PyVal :=
  PDict {[ "type" := PStr "tool_use"; "id" := PStr "t2";
           "name" := PStr "ping" ]}.

Definition null_text : PyVal :=
  PDict {[ "type" := PStr "text"; "text" := PNone ]}.

(** Key-value tool results: one with a string payload, and one whose
    list-form payload is the text block above. *)
Definition plain_result : PyVal :=
  PDict {[ "type" := PStr "tool_result"; "tool_use_id" := PStr "t1";
           "content" := PStr "found" ]}.

Definition null_payload_result : PyVal :=
  PDict {[ "type" := PStr "tool_result"; "tool_use_id" := PStr "t2";
           "content" := PList [null_text] ]}.

(** A user turn that answers a tool call. *)
Definition answering_user : AnthropicMessage :=
  {| role := user;
     content := CBlocks [search_result; BText {| text := "done" |}] |}.

Definition answering_request : AnthropicMessagesRequest :=
  request_of [user_says "Hi"; calling_assistant; answering_user] None None.

(** ** Properties of the content extractor *)

Lemma concat_empty_cons (s : string) (l : list string) :
  String.concat "" (s :: l) = s +:+ String.concat "" l.
Proof.
  destruct l as [|t l]; simpl; [|done].
  induction s as [|a s IH]; [done|].
  change (String a s = String a (s +:+ "")). by f_equal.
Qed.

Lemma str_join_from_strings (i : nat) (texts : list string) :
  str_join_from i (PStr <$> texts) = Ok (String.concat "" texts).
Proof.
  revert i. induction texts as [|s texts IH]; intros i; [done|].
  rewrite concat_empty_cons. csimpl. by rewrite IH.
Qed.

Lemma str_join_strings (texts : list string) :
  str_join (PStr <$> texts) = Ok (String.concat "" texts).
Proof. apply str_join_from_strings. Qed.

Lemma text_part_spec (block : PyVal) :
  text_part block =
    if block_tagged "text" block then Some (block_text block) else None.
Proof.
  destruct block as [| | | | |d|b]; try done. by destruct b.
Qed.

Lemma omap_text_part (blocks : list PyVal) :
  omap text_part blocks =
    block_text <$> filter (λ b, block_tagged "text" b = true) blocks.
Proof.
  induction blocks as [|b blocks IH]; [done|].
  rewrite filter_cons. csimpl. rewrite text_part_spec, IH.
  destruct (block_tagged "text" b) eqn:E; case_decide; try congruence; done.
Qed.

(** C8, amended: [extract_text_from_content] returns a string verbatim; on a
    list whose blocks tagged ["text"] all hold a string under [text] ([texts]
    names these strings, an absent [text] reading as [""]) it returns their
    concatenation, in order, other blocks adding nothing, so that the empty
    list gives the empty string; on any other value it returns the value's
    [str] instead of failing. *)
Theorem extract_text_from_content_cases (content : PyVal) :
  match content with
  | PStr s => extract_text_from_content content = Ok s
  | PList blocks =>
      (blocks = [] → extract_text_from_content content = Ok "") ∧
      ∀ texts : list string,
        block_text <$> filter (λ b, block_tagged "text" b = true) blocks
          = PStr <$> texts →
        extract_text_from_content content = Ok (String.concat "" texts)
  | _ => extract_text_from_content content = Ok (py_str content)
  end.
Proof.
  destruct content as [| | | |blocks| |]; try reflexivity.
  split; [by intros ->|].
  intros texts Htexts. cbn [extract_text_from_content].
  by rewrite omap_text_part, Htexts, str_join_strings.
Qed.

(** A tagged block whose [text] is not a string makes ["".join] raise. *)
Lemma str_join_from_not_str (i : nat) (pre : list string) (v : PyVal)
    (post : list PyVal) :
  (∀ s, v ≠ PStr s) →
  str_join_from i ((PStr <$> pre) ++ v :: post)
    = Raise (join_error (i + length pre) v).
Proof.
  intros Hv. revert i. induction pre as [|s pre IH]; intros i; csimpl.
  - rewrite Nat.add_0_r. destruct v; try done. by destruct (Hv s).
  - rewrite IH. cbn. by rewrite Nat.add_succ_r.
Qed.

Lemma str_join_not_str (pre : list string) (v : PyVal) (post : list PyVal) :
  (∀ s, v ≠ PStr s) →
  ∃ msg, str_join ((PStr <$> pre) ++ v :: post) = Raise (TypeError msg).
Proof.
  intros Hv. unfold str_join. rewrite str_join_from_not_str by done.
  by eexists.
Qed.

(** Lists of model instances: every [text] is a string. *)
Lemma str_join_objects {A} (f : A → PyVal) (g : A → option string)
    (l : list A) :
  (∀ a, text_part (f a) = PStr <$> g a) →
  extract_text_from_content (PList (f <$> l))
    = Ok (String.concat "" (omap g l)).
Proof.
  intros Hfg. cbn [extract_text_from_content].
  rewrite <- str_join_strings. f_equal.
  induction l as [|a l IH]; [done|]. csimpl.
  rewrite Hfg, IH. by destruct (g a).
Qed.

Lemma extract_text_typed (c : MsgContent) :
  extract_text_from_content (py_of_content c) = Ok (content_text c).
Proof.
  destruct c as [s|l]; [done|].
  apply (str_join_objects PObj typed_block_text). by intros [].
Qed.

Lemma extract_text_payload (p : ResultContent) :
  extract_text_from_content (py_of_result_content p) = Ok (payload_text p).
Proof.
  destruct p as [s|l]; [done|].
  apply (str_join_objects py_of_result_block
           (λ b, match b with RText t => Some (text t) | _ => None end)).
  by intros [].
Qed.

Lemma extract_text_system (l : list TextContent) :
  extract_text_from_content (py_of_system (SysBlocks l))
    = Ok (String.concat "" (text <$> l)).
Proof.
  cbn [py_of_system].
  by rewrite (str_join_objects (λ t, PObj (BText t)) (λ t, Some (text t))).
Qed.

(** The two ways [result_text] is computed agree with text extraction. *)
Lemma result_text_of_extract (v : PyVal) :
  result_text_of v = extract_text_from_content v.
Proof. by destruct v. Qed.

Lemma tool_result_entry_spec (block : PyVal) :
  tool_result_entry block =
    if block_tagged "tool_result" block
    then Some (t ← extract_text_from_content (block_payload block);
               mret (tool_result_record t (truthy (block_error_flag block))
                       (block_call_id block)))
    else None.
Proof.
  destruct block as [| | | | |d|b]; try done.
  - cbn [tool_result_entry block_tagged].
    destruct (py_eq_str _ _); [|done]. by rewrite result_text_of_extract.
  - destruct b as [| | |tid p [e|]]; try done;
      cbn [tool_result_entry]; by rewrite result_text_of_extract.
Qed.

(** C7, amended: [extract_tool_results_from_content] gives the empty list on
    a value that is not a list; on a list in which the payload of every block
    tagged ["tool_result"] reduces to text ([texts] names these reductions) it
    emits, in order, one record per such block, whose [content] is a
    one-element text array with the reduced payload, whose [status] is
    ["error"] exactly when the error flag is truthy (an absent flag reads
    [None], hence ["success"]) and whose [toolUseId] is the block's call
    id. *)
Theorem extract_tool_results_from_content_spec (content : PyVal) :
  match content with
  | PList blocks =>
      ∀ texts : list string,
        Forall2 (λ b t, extract_text_from_content (block_payload b) = Ok t)
          (filter (λ b, block_tagged "tool_result" b = true) blocks) texts →
        extract_tool_results_from_content content =
          Ok (zip_with
                (λ b t,
                   PDict {[ "content" := PList [PDict {[ "text" := PStr t ]}];
                            "status" :=
                              PStr (if truthy (block_error_flag b)
                                    then "error" else "success");
                            "toolUseId" := block_call_id b ]})
                (filter (λ b, block_tagged "tool_result" b = true) blocks)
                texts)
  | _ => extract_tool_results_from_content content = Ok []
  end.
Proof.
  destruct content as [| | | |blocks| |]; try reflexivity.
  cbn [extract_tool_results_from_content].
  induction blocks as [|b blocks IH]; intros texts Htexts.
  - by inversion Htexts.
  - rewrite filter_cons in Htexts |- *. cbn [tool_results_loop].
    rewrite tool_result_entry_spec.
    destruct (block_tagged "tool_result" b) eqn:Etag; case_decide;
      try congruence.
    + inversion Htexts as [|? t ? texts' Ht Hrest]; subst.
      rewrite Ht. cbn. by rewrite (IH _ Hrest).
    + by apply IH.
Qed.

(** ** Typed content never makes the extractors raise *)

Lemma extract_tool_results_typed (c : MsgContent) :
  extract_tool_results_from_content (py_of_content c)
    = Ok (typed_tool_results c).
Proof.
  destruct c as [s|l]; [done|].
  cbn [py_of_content extract_tool_results_from_content typed_tool_results].
  induction l as [|b l IH]; [done|]. csimpl.
  destruct b as [| | |tid p e]; try exact IH.
  cbn [tool_result_entry]. rewrite result_text_of_extract, extract_text_payload.
  cbn. rewrite IH. unfold tool_result_record.
  destruct e as [[]|]; reflexivity.
Qed.

Lemma typed_tool_results_truthy (c : MsgContent) :
  list_truthy (typed_tool_results c) = has_tool_result c.
Proof.
  destruct c as [s|l]; [done|]. cbn [typed_tool_results has_tool_result].
  induction l as [|b l IH].
  - symmetry. apply bool_decide_eq_false. by intros ?%Exists_nil.
  - destruct b; csimpl; rewrite ?IH;
      first [ apply bool_decide_ext; rewrite Exists_cons; cbn;
              split; [by right | by intros [[=]|?]]
            | done ].
Qed.

Lemma history_entry_user (model_id : string) (c : MsgContent) :
  history_entry model_id {| role := user; content := c |} =
    Ok (PDict {[ "userInputMessage" :=
      PDict (cond_insert (has_tool_result c) "userInputMessageContext"
               (PDict {[ "toolResults" := PList (typed_tool_results c) ]})
               {[ "content" := PStr (content_text c);
                  "modelId" := PStr model_id;
                  "origin" := PStr "AI_EDITOR" ]}) ]}).
Proof.
  unfold history_entry. cbn [role content].
  rewrite extract_text_typed, extract_tool_results_typed. cbn [mbind result_bind].
  by rewrite typed_tool_results_truthy.
Qed.

Lemma history_entry_assistant (model_id : string) (c : MsgContent) :
  history_entry model_id {| role := assistant; content := c |} =
    Ok (PDict {[ "assistantResponseMessage" :=
      PDict (cond_insert
               (list_truthy (extract_tool_uses_from_content (py_of_content c)))
               "toolUses"
               (PList (extract_tool_uses_from_content (py_of_content c)))
               {[ "content" := PStr (content_text c) ]}) ]}).
Proof.
  unfold history_entry. cbn [role content].
  by rewrite extract_text_typed.
Qed.

Lemma history_entry_ok (model_id : string) (msg : AnthropicMessage) :
  ∃ entry, history_entry model_id msg = Ok entry.
Proof.
  destruct msg as [[] c]; eexists.
  - apply history_entry_user.
  - apply history_entry_assistant.
Qed.

Lemma build_kiro_history_ok (msgs : list AnthropicMessage) (model_id : string) :
  ∃ history, build_kiro_history_from_anthropic msgs model_id = Ok history ∧
             length history = length msgs.
Proof.
  induction msgs as [|msg msgs (history & IH & Hlen)]; [by exists []|].
  destruct (history_entry_ok model_id msg) as [entry Hentry].
  exists (entry :: history). cbn [build_kiro_history_from_anthropic].
  rewrite Hentry, IH. cbn. by rewrite Hlen.
Qed.

Lemma build_kiro_history_truthy msgs model_id history :
  build_kiro_history_from_anthropic msgs model_id = Ok history →
  list_truthy history = list_truthy msgs.
Proof.
  destruct (build_kiro_history_ok msgs model_id) as (h & Hh & Hlen).
  rewrite Hh. intros [= <-]. by destruct h, msgs.
Qed.

Lemma resolve_system_prompt_ok (sys : option SystemPrompt) :
  ∃ system_prompt, resolve_system_prompt sys = Ok system_prompt.
Proof.
  destruct sys as [[s|l]|]; cbn [resolve_system_prompt];
    try destruct (truthy _); try by eexists.
  rewrite extract_text_system. by eexists.
Qed.

(** ** The steps of the payload builder *)

Lemma str_truthy_spec (s : string) : str_truthy s = true ↔ s ≠ "".
Proof.
  unfold str_truthy. destruct (String.eqb_spec s ""); naive_solver.
Qed.

Lemma str_truthy_false (s : string) : str_truthy s = false ↔ s = "".
Proof.
  unfold str_truthy. destruct (String.eqb_spec s ""); naive_solver.
Qed.

Lemma split_snoc {A} (l : list A) (x : A) :
  (if bool_decide (1 < length (l ++ [x]))
   then take (length (l ++ [x]) - 1) (l ++ [x]) else []) = l.
Proof.
  rewrite length_app. cbn [length].
  replace (length l + 1 - 1) with (length l) by lia.
  rewrite take_app_length. case_bool_decide; [done|].
  destruct l; [done|]. cbn [length] in *. lia.
Qed.

Lemma split_history_snoc (hm : list AnthropicMessage) (cur : AnthropicMessage) :
  split_history (hm ++ [cur]) = hm.
Proof. apply split_snoc. Qed.

Lemma inject_system_prompt_nil (system_prompt : string) :
  inject_system_prompt system_prompt [] = Ok [].
Proof. unfold inject_system_prompt. by destruct (str_truthy _). Qed.

Lemma inject_system_prompt_user system_prompt first rest :
  system_prompt ≠ "" → role first = user →
  inject_system_prompt system_prompt (first :: rest) =
    Ok ({| role := user;
           content := CStr (system_prompt +:+ nl2 +:+ content_text (content first))
        |} :: rest).
Proof.
  intros HS%str_truthy_spec Hrole. unfold inject_system_prompt.
  rewrite HS. cbn [list_truthy andb lookup list_lookup].
  by rewrite Hrole, extract_text_typed.
Qed.

Lemma inject_system_prompt_assistant system_prompt first rest :
  role first = assistant →
  inject_system_prompt system_prompt (first :: rest) = Ok (first :: rest).
Proof.
  intros Hrole. unfold inject_system_prompt.
  destruct (str_truthy _); [|done].
  cbn [list_truthy andb lookup list_lookup]. by rewrite Hrole.
Qed.

Lemma inject_system_prompt_ok system_prompt hm :
  ∃ hm', inject_system_prompt system_prompt hm = Ok hm' ∧
         list_truthy hm' = list_truthy hm.
Proof.
  destruct hm as [|first rest].
  - exists []. by rewrite inject_system_prompt_nil.
  - destruct (decide (system_prompt = "")) as [->|HS]; [by eexists|].
    destruct (role first) eqn:Hrole; eexists; split;
      first [by apply inject_system_prompt_user
            |by apply inject_system_prompt_assistant|done].
Qed.

(** What [assemble_payload] returns, over the typed request. *)
Lemma assemble_payload_value request_data model_id system_prompt history
    current_message conversation_id profile_arn :
  assemble_payload request_data model_id system_prompt history current_message
    conversation_id profile_arn =
  Ok (PDict
    (cond_insert (str_truthy profile_arn) "profileArn" (PStr profile_arn)
      {[ "conversationState" := PDict
        (cond_insert
           (list_truthy (folded_history system_prompt history current_message))
           "history"
           (PList (folded_history system_prompt history current_message))
           {[ "chatTriggerType" := PStr "MANUAL";
              "conversationId" := PStr conversation_id;
              "currentMessage" := PDict {[ "userInputMessage" := PDict
                (cond_insert
                   (negb (bool_decide
                      (current_context request_data current_message = ∅)))
                   "userInputMessageContext"
                   (PDict (current_context request_data current_message))
                   {[ "content" :=
                        PStr (final_content system_prompt history
                                current_message);
                      "modelId" := PStr model_id;
                      "origin" := PStr "AI_EDITOR" ]}) ]} ]}) ]})).
Proof.
  unfold assemble_payload, folded_history, final_content, current_context,
    resolved_text.
  rewrite extract_text_typed. cbn [mbind result_bind].
  assert (Htools :
    match convert_anthropic_tools_to_kiro (tools request_data) with
    | Some kiro_tools =>
        if list_truthy kiro_tools
        then <["tools" := PList kiro_tools]> (∅ : gmap string PyVal)
        else ∅
    | None => ∅
    end = cond_insert (from_option list_truthy false (tools request_data))
            "tools"
            (PList (tool_specification <$> default [] (tools request_data))) ∅).
  { by destruct (tools request_data) as [[|tool defs]|]. }
  destruct (role current_message).
  - rewrite extract_tool_results_typed. cbn [mbind result_bind mret result_ret].
    rewrite typed_tool_results_truthy.
    destruct (tools request_data) as [[|tool defs]|];
      destruct (has_tool_result _); unfold cond_insert;
      cbn [from_option list_truthy convert_anthropic_tools_to_kiro negb];
      repeat case_bool_decide; done.
  - cbn [mbind result_bind mret result_ret].
    destruct (tools request_data) as [[|tool defs]|]; unfold cond_insert;
      cbn [from_option list_truthy convert_anthropic_tools_to_kiro negb];
      repeat case_bool_decide; done.
Qed.

Lemma build_kiro_payload_steps request_data conversation_id profile_arn
    hm cur :
  messages request_data = hm ++ [cur] →
  build_kiro_payload_from_anthropic request_data conversation_id profile_arn =
    (system_prompt ← resolve_system_prompt (system request_data);
     hm' ← inject_system_prompt system_prompt hm;
     history ← build_kiro_history_from_anthropic hm'
                 (get_internal_model_id (model request_data));
     assemble_payload request_data
       (get_internal_model_id (model request_data)) system_prompt history cur
       conversation_id profile_arn).
Proof.
  intros Hmsgs. unfold build_kiro_payload_from_anthropic.
  rewrite Hmsgs, split_history_snoc, last_snoc.
  by destruct hm.
Qed.

(** Reading the normal form of the payload. *)
Lemma lookup_cond_insert_ne b k v (d : gmap string PyVal) k' :
  k ≠ k' → cond_insert b k v d !! k' = d !! k'.
Proof. intros. destruct b; [by apply lookup_insert_ne|done]. Qed.

Lemma lookup_cond_insert_eq b k v (d : gmap string PyVal) :
  cond_insert b k v d !! k = if b then Some v else d !! k.
Proof. destruct b; [by apply lookup_insert_eq|done]. Qed.

Lemma cond_insert_empty b k v (d : gmap string PyVal) :
  cond_insert b k v d = ∅ ↔ b = false ∧ d = ∅.
Proof.
  destruct b; cbn [cond_insert].
  - split; [|by intros []]. intros Hempty. by apply insert_non_empty in Hempty.
  - split; [by intros ->|by intros []].
Qed.

Ltac read_payload :=
  unfold current_user_input, payload_history;
  cbn [py_path py_get];
  repeat first
    [ rewrite lookup_cond_insert_eq
    | rewrite lookup_cond_insert_ne by done
    | rewrite lookup_insert_eq
    | rewrite lookup_insert_ne by done
    | rewrite lookup_singleton_eq
    | rewrite lookup_singleton_ne by done
    | rewrite lookup_empty
    | progress cbn [py_path py_get] ].

Lemma build_kiro_payload_value request_data conversation_id profile_arn
    hm cur :
  messages request_data = hm ++ [cur] →
  ∃ system_prompt hm' history,
    resolve_system_prompt (system request_data) = Ok system_prompt ∧
    inject_system_prompt system_prompt hm = Ok hm' ∧
    build_kiro_history_from_anthropic hm'
      (get_internal_model_id (model request_data)) = Ok history ∧
    list_truthy history = list_truthy hm ∧
    build_kiro_payload_from_anthropic request_data conversation_id profile_arn
      = assemble_payload request_data
          (get_internal_model_id (model request_data)) system_prompt history
          cur conversation_id profile_arn.
Proof.
  intros Hmsgs.
  destruct (resolve_system_prompt_ok (system request_data)) as [S HS].
  destruct (inject_system_prompt_ok S hm) as (hm' & Hhm' & Htruthy).
  destruct (build_kiro_history_ok hm'
              (get_internal_model_id (model request_data))) as (h & Hh & _).
  exists S, hm', h. repeat split; try done.
  - rewrite <- Htruthy. by eapply build_kiro_history_truthy.
  - rewrite (build_kiro_payload_steps _ _ _ _ _ Hmsgs), HS.
    cbn [mbind result_bind]. rewrite Hhm'. cbn [mbind result_bind].
    by rewrite Hh.
Qed.

Lemma snoc_of_nonempty {A} (l : list A) :
  l ≠ [] → ∃ init x, l = init ++ [x].
Proof.
  intros Hl. destruct (exists_last Hl) as (init & x & ->). by exists init, x.
Qed.

(** ** Properties of the payload builder *)

(** C5: the builder raises exactly when the message list is empty, and then
    raises the [ValueError] of the empty-list guard; a request with at least
    one message always gets a payload, whatever its system prompt, contents,
    last role and tools. *)
Theorem invalid_request_iff_no_messages request_data conversation_id
    profile_arn :
  ((∃ e, build_kiro_payload_from_anthropic request_data conversation_id
           profile_arn = Raise e)
     ↔ messages request_data = []) ∧
  (build_kiro_payload_from_anthropic request_data conversation_id profile_arn
     = Raise (ValueError "No messages provided")
     ↔ messages request_data = []) ∧
  ((∃ payload, build_kiro_payload_from_anthropic request_data conversation_id
                 profile_arn = Ok payload)
     ↔ messages request_data ≠ []).
Proof.
  destruct (decide (messages request_data = [])) as [Hnil|Hcons].
  - assert (build_kiro_payload_from_anthropic request_data conversation_id
              profile_arn = Raise (ValueError "No messages provided")) as Hraise.
    { unfold build_kiro_payload_from_anthropic. by rewrite Hnil. }
    rewrite Hraise. repeat split; try done; try by eexists.
    by intros [? [=]].
  - destruct (snoc_of_nonempty _ Hcons) as (hm & cur & Hmsgs).
    destruct (build_kiro_payload_value request_data conversation_id
                profile_arn hm cur Hmsgs) as (S & hm' & h & _ & _ & _ & _ & ->).
    rewrite assemble_payload_value.
    repeat split; try done; try by eexists.
    by intros [? [=]].
Qed.

(** C4: a request with at least one message gets a payload whose
    [currentMessage] holds one [userInputMessage] and nothing else; its
    [content] is a non-empty string, and it is ["Continue"] whenever the
    resolved current text is empty. *)
Theorem current_message_content_not_empty request_data conversation_id
    profile_arn :
  messages request_data ≠ [] →
  ∃ payload user_input current_content,
    build_kiro_payload_from_anthropic request_data conversation_id profile_arn
      = Ok payload ∧
    py_path ["conversationState"; "currentMessage"] payload
      = Some (PDict {[ "userInputMessage" := PDict user_input ]}) ∧
    user_input !! "content" = Some (PStr current_content) ∧
    current_content ≠ "" ∧
    ∀ system_prompt hm cur,
      resolve_system_prompt (system request_data) = Ok system_prompt →
      messages request_data = hm ++ [cur] →
      let resolved :=
        if str_truthy system_prompt && bool_decide (hm = [])
        then system_prompt +:+ nl2 +:+ content_text (content cur)
        else content_text (content cur) in
      (resolved = "" → current_content = "Continue") ∧
      (role cur = user → resolved ≠ "" → current_content = resolved).
Proof.
  intros Hcons.
  destruct (snoc_of_nonempty _ Hcons) as (hm & cur & Hmsgs).
  destruct (build_kiro_payload_value request_data conversation_id
              profile_arn hm cur Hmsgs)
    as (S & hm' & h & HS & _ & _ & Hh & ->).
  rewrite assemble_payload_value.
  eexists _, _, (final_content S h cur). split; [done|].
  split; [by read_payload|]. split; [by read_payload|].
  assert (resolved_text S h cur =
            if str_truthy S && bool_decide (hm = [])
            then S +:+ nl2 +:+ content_text (content cur)
            else content_text (content cur)) as Hres.
  { unfold resolved_text. rewrite Hh. by destruct hm. }
  split.
  - unfold final_content. destruct (role cur); [|done].
    destruct (str_truthy (resolved_text S h cur)) eqn:E; [|done].
    by apply str_truthy_spec.
  - intros S' hm0 cur0 HS' Hmsgs'.
    rewrite Hmsgs in Hmsgs'. apply app_inj_tail in Hmsgs' as [<- <-].
    rewrite HS in HS'. injection HS' as <-. rewrite <- Hres.
    cbn zeta. unfold final_content. split.
    + intros Hempty. destruct (role cur); [|done].
      by rewrite (proj2 (str_truthy_false _) Hempty).
    + intros -> Hne. by rewrite (proj2 (str_truthy_spec _) Hne).
Qed.

Lemma payload_history_value b1 v1 fh (cs : gmap string PyVal) :
  cs !! "history" = None →
  payload_history
    (PDict (cond_insert b1 "profileArn" v1
       {[ "conversationState" :=
            PDict (cond_insert (list_truthy fh) "history" (PList fh) cs) ]}))
    = fh.
Proof.
  intros Hcs. read_payload. rewrite Hcs. by destruct fh.
Qed.

Lemma prefixed_not_empty (s t : string) : s ≠ "" → s +:+ t ≠ "".
Proof. by destruct s. Qed.

(** C1, amended: with a non-empty system prompt and a single message (no
    history messages), the text extracted from that message is prefixed with
    the prompt and a blank line.  For a user message this is the final current
    content; for an assistant message the prefixed text is the content of the
    history entry the message is folded into, and the current content is
    ["Continue"]. *)
Theorem system_prompt_prefixes_single_message request_data conversation_id
    profile_arn system_prompt cur current_text :
  resolve_system_prompt (system request_data) = Ok system_prompt →
  system_prompt ≠ "" →
  messages request_data = [cur] →
  extract_text_from_content (py_of_content (content cur)) = Ok current_text →
  ∃ payload user_input,
    build_kiro_payload_from_anthropic request_data conversation_id profile_arn
      = Ok payload ∧
    current_user_input payload = Some (PDict user_input) ∧
    match role cur with
    | user =>
        user_input !! "content"
          = Some (PStr (system_prompt +:+ nl2 +:+ current_text)) ∧
        payload_history payload = []
    | assistant =>
        payload_history payload =
          [PDict {[ "assistantResponseMessage" := PDict
             {[ "content" := PStr (system_prompt +:+ nl2 +:+ current_text) ]} ]}] ∧
        user_input !! "content" = Some (PStr "Continue")
    end.
Proof.
  intros HS Hne Hmsgs Htext.
  rewrite extract_text_typed in Htext. injection Htext as <-.
  destruct (build_kiro_payload_value request_data conversation_id
              profile_arn [] cur Hmsgs)
    as (S & hm' & h & HS' & _ & _ & Hh & ->).
  rewrite HS in HS'. injection HS' as <-.
  destruct h; [|done]. rewrite assemble_payload_value.
  eexists _, _. split; [done|]. split; [by read_payload|].
  assert (resolved_text system_prompt [] cur =
            system_prompt +:+ nl2 +:+ content_text (content cur)) as Hres.
  { unfold resolved_text. by rewrite (proj2 (str_truthy_spec _) Hne). }
  rewrite payload_history_value by done.
  unfold folded_history, final_content. rewrite Hres.
  destruct (role cur); (split; [|done]) || (split; [done|]); read_payload.
  - by rewrite (proj2 (str_truthy_spec _) (prefixed_not_empty _ _ Hne)).
  - done.
Qed.

Lemma build_kiro_history_cons msg rest model_id entry later :
  history_entry model_id msg = Ok entry →
  build_kiro_history_from_anthropic rest model_id = Ok later →
  build_kiro_history_from_anthropic (msg :: rest) model_id
    = Ok (entry :: later).
Proof.
  intros Hentry Hlater. cbn [build_kiro_history_from_anthropic].
  by rewrite Hentry, Hlater.
Qed.

(** The builder on a request whose first history message is a user message
    and whose system prompt is not empty. *)
Lemma build_kiro_payload_injected request_data conversation_id profile_arn
    system_prompt first rest cur :
  resolve_system_prompt (system request_data) = Ok system_prompt →
  system_prompt ≠ "" →
  messages request_data = first :: rest ++ [cur] →
  role first = user →
  ∃ later,
    build_kiro_history_from_anthropic rest
      (get_internal_model_id (model request_data)) = Ok later ∧
    build_kiro_payload_from_anthropic request_data conversation_id profile_arn
      = assemble_payload request_data
          (get_internal_model_id (model request_data)) system_prompt
          (PDict {[ "userInputMessage" := PDict
             {[ "content" :=
                  PStr (system_prompt +:+ nl2 +:+ content_text (content first));
                "modelId" := PStr (get_internal_model_id (model request_data));
                "origin" := PStr "AI_EDITOR" ]} ]} :: later)
          cur conversation_id profile_arn.
Proof.
  intros HS Hne Hmsgs Hrole.
  destruct (build_kiro_history_ok rest
              (get_internal_model_id (model request_data)))
    as (later & Hlater & _).
  exists later. split; [done|].
  rewrite (build_kiro_payload_steps _ _ _ (first :: rest) cur Hmsgs), HS.
  cbn [mbind result_bind].
  rewrite (inject_system_prompt_user _ _ _ Hne Hrole). cbn [mbind result_bind].
  by rewrite (build_kiro_history_cons _ _ _ _ _
                (history_entry_user _ _) Hlater).
Qed.

(** C3: with a non-empty system prompt, at least two messages and a first
    message of role [user] whose extracted text is [U], entry 0 of the built
    history is a [userInputMessage] with content [systemPrompt + "\n\n" + U];
    the entries after it are those the history builder gives for the later
    history messages as they are, followed, when the conversation ends on an
    assistant message, by the entry that message is folded into. *)
Theorem system_prompt_injected_into_history request_data conversation_id
    profile_arn system_prompt first rest cur U :
  resolve_system_prompt (system request_data) = Ok system_prompt →
  system_prompt ≠ "" →
  messages request_data = first :: rest ++ [cur] →
  role first = user →
  extract_text_from_content (py_of_content (content first)) = Ok U →
  ∃ payload later,
    build_kiro_payload_from_anthropic request_data conversation_id profile_arn
      = Ok payload ∧
    build_kiro_history_from_anthropic rest
      (get_internal_model_id (model request_data)) = Ok later ∧
    payload_history payload =
      PDict {[ "userInputMessage" := PDict
        {[ "content" := PStr (system_prompt +:+ nl2 +:+ U);
           "modelId" := PStr (get_internal_model_id (model request_data));
           "origin" := PStr "AI_EDITOR" ]} ]}
      :: later ++
         match role cur with
         | assistant =>
             [PDict {[ "assistantResponseMessage" := PDict
                {[ "content" := PStr (content_text (content cur)) ]} ]}]
         | user => []
         end.
Proof.
  intros HS Hne Hmsgs Hrole HU.
  rewrite extract_text_typed in HU. injection HU as <-.
  destruct (build_kiro_payload_injected request_data conversation_id
              profile_arn system_prompt first rest cur HS Hne Hmsgs Hrole)
    as (later & Hlater & ->).
  rewrite assemble_payload_value. eexists _, later.
  split; [done|]. split; [done|].
  rewrite payload_history_value by done.
  unfold folded_history, resolved_text. cbn [list_truthy negb].
  rewrite andb_false_r. destruct (role cur); [by rewrite app_nil_r|done].
Qed.

(** C10: when the system prompt is injected into a first history message
    that carries [tool_result] blocks, the message is replaced by a copy whose
    content is a plain string, and entry 0 of the history has no
    [userInputMessageContext]; the same message without injection yields an
    entry that carries its tool results. *)
Theorem injected_first_message_loses_tool_results request_data
    conversation_id profile_arn system_prompt first rest cur :
  resolve_system_prompt (system request_data) = Ok system_prompt →
  system_prompt ≠ "" →
  messages request_data = first :: rest ++ [cur] →
  role first = user →
  has_tool_result (content first) = true →
  (∃ injected,
     inject_system_prompt system_prompt (first :: rest)
       = Ok ({| role := user; content := CStr injected |} :: rest)) ∧
  (∃ payload user_input,
     build_kiro_payload_from_anthropic request_data conversation_id profile_arn
       = Ok payload ∧
     payload_history payload !! 0%nat
       = Some (PDict {[ "userInputMessage" := PDict user_input ]}) ∧
     user_input !! "userInputMessageContext" = None) ∧
  (∃ results user_input,
     results ≠ [] ∧
     history_entry (get_internal_model_id (model request_data)) first
       = Ok (PDict {[ "userInputMessage" := PDict user_input ]}) ∧
     user_input !! "userInputMessageContext"
       = Some (PDict {[ "toolResults" := PList results ]})).
Proof.
  intros HS Hne Hmsgs Hrole Hresults. split; [|split].
  - eexists. by apply inject_system_prompt_user.
  - destruct (build_kiro_payload_injected request_data conversation_id
                profile_arn system_prompt first rest cur HS Hne Hmsgs Hrole)
      as (later & Hlater & ->).
    rewrite assemble_payload_value. eexists _, _. split; [done|].
    rewrite payload_history_value by done.
    split.
    + unfold folded_history. by destruct (role cur).
    + by read_payload.
  - destruct first as [r c]. cbn [role content] in *. subst r.
    exists (typed_tool_results c). eexists. split; [|split].
    + intros Hnil. pose proof (typed_tool_results_truthy c) as Ht.
      rewrite Hnil, Hresults in Ht. done.
    + apply history_entry_user.
    + rewrite Hresults. by read_payload.
Qed.

Lemma model_dump_exclude_none_lookup (s : AnthropicToolInputSchema) :
  model_dump_exclude_none s !! "type" = Some (PStr (schema_type s)) ∧
  model_dump_exclude_none s !! "properties" = PDict <$> properties s ∧
  model_dump_exclude_none s !! "required"
    = (λ r, PList (PStr <$> r)) <$> required s ∧
  ∀ k v, k ≠ "type" → k ≠ "properties" → k ≠ "required" →
    (model_dump_exclude_none s !! k = Some v
       ↔ schema_extra s !! k = Some v ∧ v ≠ PNone).
Proof.
  unfold model_dump_exclude_none.
  assert (∀ k, (k = "type" ∨ k = "properties" ∨ k = "required") →
    filter (λ kv : string * PyVal, is_none kv.2 = false)
      (extra_fields s) !! k = None) as Hdeclared.
  { intros k Hk. apply map_lookup_filter_None. left. unfold extra_fields.
    destruct Hk as [-> | [-> | ->]];
      repeat first [ apply lookup_delete_eq
                   | rewrite lookup_delete_ne by done ]. }
  split; [by rewrite lookup_insert_eq|].
  split.
  { rewrite lookup_insert_ne by done.
    destruct (properties s); cbn [set_if_some fmap option_fmap option_map].
    - by rewrite lookup_insert_eq.
    - destruct (required s); cbn [set_if_some fmap option_fmap option_map];
        rewrite ?lookup_insert_ne by done; apply Hdeclared; auto. }
  split.
  { rewrite lookup_insert_ne by done.
    destruct (properties s); cbn [set_if_some fmap option_fmap option_map];
      rewrite ?lookup_insert_ne by done;
      (destruct (required s); cbn [set_if_some fmap option_fmap option_map];
       [by rewrite lookup_insert_eq | apply Hdeclared; auto]). }
  intros k v Ht Hp Hr.
  rewrite lookup_insert_ne by done.
  destruct (properties s); cbn [set_if_some fmap option_fmap option_map];
    rewrite ?lookup_insert_ne by done;
    (destruct (required s); cbn [set_if_some fmap option_fmap option_map];
     rewrite ?lookup_insert_ne by done);
    unfold extra_fields;
    rewrite map_lookup_filter_Some, !lookup_delete_ne by done; cbn;
    (split; intros [Hk Hv]; (split; [done|]); by destruct v).
Qed.

Lemma model_dump_exclude_none_filter (s : AnthropicToolInputSchema) :
  model_dump_exclude_none s
    = filter (λ kv, is_none kv.2 = false) (schema_object s).
Proof.
  unfold model_dump_exclude_none, schema_object.
  rewrite map_filter_insert_True by done.
  destruct (properties s), (required s);
    cbn [set_if_some fmap option_fmap option_map];
    by rewrite ?map_filter_insert_True by done.
Qed.

(** C6, amended: when tool definitions are supplied, the current
    [userInputMessage] has a [userInputMessageContext] whose [tools] list
    holds, in order, one [toolSpecification] per definition with its name, its
    description and, under [inputSchema.json], its input schema object without
    the keys whose value is [None]: [type], [properties] and [required] read
    as in the schema, with their nested content.  With no tool definition and
    no tool result in a last message of role [user], the
    [userInputMessageContext] key is absent. *)
Theorem tools_in_current_context request_data conversation_id profile_arn :
  messages request_data ≠ [] →
  ∃ payload user_input,
    build_kiro_payload_from_anthropic request_data conversation_id profile_arn
      = Ok payload ∧
    current_user_input payload = Some (PDict user_input) ∧
    (∀ defs, tools request_data = Some defs → defs ≠ [] →
       ∃ context,
         user_input !! "userInputMessageContext" = Some (PDict context) ∧
         context !! "tools" = Some (PList (
           (λ tool, PDict {[ "toolSpecification" := PDict
              {[ "name" := PStr (name tool);
                 "description" := PStr (description tool);
                 "inputSchema" := PDict {[ "json" := PDict
                    (filter (λ kv, is_none kv.2 = false)
                       (schema_object (input_schema tool))) ]} ]} ]})
           <$> defs)) ∧
         ∀ tool, tool ∈ defs →
           let json :=
             filter (λ kv, is_none kv.2 = false)
               (schema_object (input_schema tool)) in
           json !! "type" = Some (PStr (schema_type (input_schema tool))) ∧
           json !! "properties" = PDict <$> properties (input_schema tool) ∧
           json !! "required"
             = (λ r, PList (PStr <$> r)) <$> required (input_schema tool)) ∧
    (∀ cur, last (messages request_data) = Some cur →
       tools request_data = None ∨ tools request_data = Some [] →
       ¬ (role cur = user ∧ has_tool_result (content cur) = true) →
       user_input !! "userInputMessageContext" = None).
Proof.
  intros Hcons.
  destruct (snoc_of_nonempty _ Hcons) as (hm & cur & Hmsgs).
  destruct (build_kiro_payload_value request_data conversation_id
              profile_arn hm cur Hmsgs)
    as (S & hm' & h & _ & _ & _ & _ & ->).
  rewrite assemble_payload_value. eexists _, _.
  split; [done|]. split; [by read_payload|]. split.
  - intros defs Hdefs Hne. exists (current_context request_data cur).
    assert (current_context request_data cur ≠ ∅) as Hctx.
    { unfold current_context. rewrite Hdefs. intros Hempty.
      apply cond_insert_empty in Hempty as [_ Hempty].
      apply cond_insert_empty in Hempty as [Hempty _]. by destruct defs. }
    split; [|split].
    + read_payload. by rewrite bool_decide_eq_false_2.
    + unfold current_context. rewrite Hdefs. read_payload.
      assert (from_option list_truthy false (Some defs) = true) as ->
        by (by destruct defs).
      do 2 f_equal. cbn [default from_option]. apply list_fmap_ext.
      intros _ tool _. unfold tool_specification. cbn zeta.
      by rewrite model_dump_exclude_none_filter.
    + intros tool _ json. unfold json.
      rewrite <- model_dump_exclude_none_filter.
      destruct (model_dump_exclude_none_lookup (input_schema tool))
        as (Ht & Hp & Hr & _).
      done.
  - intros cur' Hlast Htools Hresults.
    rewrite Hmsgs, last_snoc in Hlast. injection Hlast as <-.
    assert (current_context request_data cur = ∅) as ->.
    { unfold current_context.
      assert (from_option list_truthy false (tools request_data) = false)
        as -> by (by destruct Htools as [-> | ->]).
      destruct (role cur); [|done].
      destruct (has_tool_result (content cur)); [|done].
      by destruct Hresults. }
    by read_payload.
Qed.

(** ** The builder and the caller's objects *)

Lemma hbind_ok {A B} (m : HeapM A) (f : A → HeapM B) h a h' :
  m h = (Ok a, h') → hbind m f h = f a h'.
Proof. unfold hbind. by intros ->. Qed.

Lemma load_list_ok h l items :
  h !! l = Some (OList items) → load_list l h = (Ok items, h).
Proof. unfold load_list. by intros ->. Qed.

Lemma load_message_ok h l msg :
  h !! l = Some (OMessage msg) → load_message l h = (Ok msg, h).
Proof. unfold load_message. by intros ->. Qed.

Lemma alloc_fresh (o : PyObj) (h : gmap loc PyObj) :
  ∃ l, h !! l = None ∧ alloc o h = (Ok l, <[l := o]> h).
Proof.
  exists (fresh (dom h)). split; [|done].
  apply not_elem_of_dom, is_fresh.
Qed.

Lemma load_messages_ok h items msgs :
  Forall2 (λ r m, h !! r = Some (OMessage m)) items msgs →
  load_messages items h = (Ok msgs, h).
Proof.
  induction 1 as [|r m items msgs Hr _ IH]; [done|].
  cbn [load_messages].
  rewrite (hbind_ok _ _ _ _ _ (load_message_ok _ _ _ Hr)).
  by rewrite (hbind_ok _ _ _ _ _ IH).
Qed.

Lemma messages_weaken (h h' : gmap loc PyObj) items msgs :
  h ⊆ h' →
  Forall2 (λ r m, h !! r = Some (OMessage m)) items msgs →
  Forall2 (λ r m, h' !! r = Some (OMessage m)) items msgs.
Proof.
  intros Hsub Hall. eapply Forall2_impl; [exact Hall|].
  intros r m Hr. cbn beta in Hr |- *.
  exact (lookup_weaken h h' r _ Hr Hsub).
Qed.

(** The injection step writes to the list [history_messages] and to a new
    message only, and leaves the list holding the messages that
    [inject_system_prompt] computes. *)
Lemma inject_system_prompt_on_heap_spec system_prompt history_messages
    (h : gmap loc PyObj) items hm :
  h !! history_messages = Some (OList items) →
  Forall2 (λ r m, h !! r = Some (OMessage m)) items hm →
  ∃ h' items' hm',
    inject_system_prompt system_prompt hm = Ok hm' ∧
    inject_system_prompt_on_heap system_prompt history_messages h
      = (Ok (), h') ∧
    h' !! history_messages = Some (OList items') ∧
    Forall2 (λ r m, h' !! r = Some (OMessage m)) items' hm' ∧
    ∀ l o, l ≠ history_messages → h !! l = Some o → h' !! l = Some o.
Proof.
  intros Hlist Hall. unfold inject_system_prompt_on_heap.
  rewrite (hbind_ok _ _ _ _ _ (load_list_ok _ _ _ Hlist)).
  assert (list_truthy items = list_truthy hm) as Htruthy.
  { by destruct Hall. }
  unfold inject_system_prompt. rewrite Htruthy.
  destruct (str_truthy system_prompt && list_truthy hm) eqn:Hcond.
  2: { exists h, items, hm. by repeat split. }
  destruct Hall as [|first_ref first items rest Hfirst Hrest];
    [by rewrite andb_false_r in Hcond|].
  cbn [lookup list_lookup].
  rewrite (hbind_ok _ _ _ _ _ (load_message_ok _ _ _ Hfirst)).
  destruct (role first) eqn:Hrole.
  2: { exists h, (first_ref :: items), (first :: rest).
       repeat split; try done. by constructor. }
  rewrite extract_text_typed. cbn [mbind result_bind mret result_ret].
  erewrite (hbind_ok (hlift _)) by reflexivity.
  set (copy := {| role := user; content := _ |}).
  destruct (alloc_fresh (OMessage copy) h) as (new_ref & Hnew & Halloc).
  rewrite (hbind_ok _ _ _ _ _ Halloc).
  assert (new_ref ≠ history_messages) as Hne by congruence.
  unfold list_setitem. rewrite lookup_insert_ne, Hlist by done.
  cbn [length]. rewrite bool_decide_eq_true_2 by lia.
  eexists _, (new_ref :: items), (copy :: rest).
  split; [done|]. split; [done|]. split; [by rewrite lookup_insert_eq|].
  split.
  - constructor.
    + rewrite lookup_insert_ne, lookup_insert_eq; done.
    + eapply Forall2_impl; [exact Hrest|]. intros r m Hr. cbn beta.
      rewrite !lookup_insert_ne; [done|congruence|congruence].
  - intros l o Hl Hlo. rewrite !lookup_insert_ne; [done|congruence|done].
Qed.

(** C9: run on a store that holds the request's messages, the builder
    returns what [build_kiro_payload_from_anthropic] returns and leaves every
    object of the initial store as it was: the caller's message list, the
    messages in it and their contents.  The list whose item 0 is assigned and
    the message put there are objects created by the builder. *)
Theorem caller_messages_not_mutated request_data request_messages
    conversation_id profile_arn (h : gmap loc PyObj) :
  holds_messages h request_messages (messages request_data) →
  ∃ h',
    build_kiro_payload_on_heap request_data request_messages conversation_id
      profile_arn h
    = (build_kiro_payload_from_anthropic request_data conversation_id
         profile_arn, h') ∧
    h ⊆ h' ∧
    holds_messages h' request_messages (messages request_data).
Proof.
  intros (items & Hlist & Hall). unfold build_kiro_payload_on_heap.
  rewrite (hbind_ok _ _ _ _ _ (load_list_ok _ _ _ Hlist)).
  destruct (decide (messages request_data = [])) as [Hnil|Hcons].
  { exists h. rewrite Hnil in Hall. inversion Hall; subst.
    unfold build_kiro_payload_from_anthropic. rewrite Hnil.
    split; [done|]. split; [done|]. by exists []. }
  destruct (snoc_of_nonempty _ Hcons) as (hm & cur & Hmsgs).
  rewrite Hmsgs in Hall.
  apply Forall2_app_inv_r in Hall
    as (history_items & last_items & Hhistory & Hlast & ->).
  inversion Hlast as [|current_ref ? ? ? Hcurrent Hnone]; subst.
  inversion Hnone; subst. clear Hlast Hnone.
  rewrite (build_kiro_payload_steps _ _ _ _ _ Hmsgs).
  assert (list_truthy (history_items ++ [current_ref]) = true) as ->
    by (by destruct history_items).
  cbn [negb].
  destruct (resolve_system_prompt_ok (system request_data)) as [S HS].
  rewrite HS. cbn [mbind result_bind].
  erewrite (hbind_ok (hlift _)) by reflexivity.
  destruct (alloc_fresh (OList (history_items ++ [current_ref])) h)
    as (msgs_ref & Hmsgs_ref & Halloc1).
  rewrite (hbind_ok _ _ _ _ _ Halloc1).
  erewrite (hbind_ok (load_list _));
    [|apply load_list_ok, lookup_insert_eq].
  rewrite split_snoc.
  set (h1 := <[msgs_ref := _]> h).
  destruct (alloc_fresh (OList history_items) h1)
    as (history_ref & Hhistory_ref & Halloc2).
  rewrite (hbind_ok _ _ _ _ _ Halloc2).
  set (h2 := <[history_ref := _]> h1).
  assert (h ⊆ h1) as Hsub1 by (by apply insert_subseteq).
  assert (h1 ⊆ h2) as Hsub2 by (by apply insert_subseteq).
  assert (h !! history_ref = None) as Hfree.
  { destruct (h !! history_ref) eqn:E; [|done].
    by rewrite (lookup_weaken _ _ _ _ E Hsub1) in Hhistory_ref. }
  destruct (inject_system_prompt_on_heap_spec S history_ref h2
              history_items hm)
    as (h3 & items' & hm' & Hinject & Hstep & Hitems' & Hall' & Hframe).
  { apply lookup_insert_eq. }
  { eapply messages_weaken; [|exact Hhistory]. by etrans. }
  rewrite (hbind_ok _ _ _ _ _ Hstep).
  rewrite Hinject. cbn [mbind result_bind].
  rewrite (hbind_ok _ _ _ _ _ (load_list_ok _ _ _ Hitems')).
  rewrite (hbind_ok _ _ _ _ _ (load_messages_ok _ _ _ Hall')).
  assert (h ⊆ h3) as Hsub3.
  { apply map_subseteq_spec. intros l o Hl. apply Hframe; [congruence|].
    eapply lookup_weaken; [exact Hl|]. by etrans. }
  exists h3. split; [|split; [done|]].
  - destruct (build_kiro_history_ok hm'
                (get_internal_model_id (model request_data)))
      as (history & Hh & _).
    rewrite Hh. cbn [mbind result_bind].
    erewrite (hbind_ok (hlift _)) by reflexivity.
    assert (h3 !! msgs_ref = Some (OList (history_items ++ [current_ref])))
      as Hmsgs3.
    { assert (history_ref ≠ msgs_ref) as Hne.
      { intros ->. unfold h1 in Hhistory_ref.
        by rewrite lookup_insert_eq in Hhistory_ref. }
      apply Hframe; [done|].
      unfold h2. rewrite lookup_insert_ne by done.
      apply lookup_insert_eq. }
    rewrite (hbind_ok _ _ _ _ _ (load_list_ok _ _ _ Hmsgs3)).
    rewrite last_snoc.
    assert (h3 !! current_ref = Some (OMessage cur)) as Hcur3
      by (by eapply lookup_weaken).
    by rewrite (hbind_ok _ _ _ _ _ (load_message_ok _ _ _ Hcur3)).
  - exists (history_items ++ [current_ref]). split.
    + by eapply lookup_weaken.
    + rewrite Hmsgs. eapply messages_weaken; [exact Hsub3|].
      apply Forall2_app; [done|]. by repeat constructor.
Qed.

(** Whatever the request, a conversation that ends on an assistant turn is
    folded.  The payload history is [earlier], the history built from the
    messages before the last after the system prompt has been injected into
    them, followed by one entry that has a [content] and no other key; this
    content is the text of the last message, with the system prompt in front
    when there is one and [earlier] is empty.  The current content is
    ["Continue"]. *)
Lemma trailing_assistant_folded request_data conversation_id profile_arn
    hm cur :
  messages request_data = hm ++ [cur] →
  role cur = assistant →
  ∃ payload user_input system_prompt injected earlier,
    resolve_system_prompt (system request_data) = Ok system_prompt ∧
    inject_system_prompt system_prompt hm = Ok injected ∧
    build_kiro_history_from_anthropic injected
      (get_internal_model_id (model request_data)) = Ok earlier ∧
    build_kiro_payload_from_anthropic request_data conversation_id profile_arn
      = Ok payload ∧
    current_user_input payload = Some (PDict user_input) ∧
    user_input !! "content" = Some (PStr "Continue") ∧
    payload_history payload = earlier ++
      [PDict {[ "assistantResponseMessage" :=
         PDict {[ "content" :=
           PStr (if str_truthy system_prompt && negb (list_truthy earlier)
                 then system_prompt +:+ nl2 +:+ content_text (content cur)
                 else content_text (content cur)) ]} ]}] ∧
    length earlier = length hm.
Proof.
  intros Hmsgs Hrole.
  destruct (resolve_system_prompt_ok (system request_data)) as [S HS].
  destruct (inject_system_prompt_ok S hm) as (hm' & Hhm' & Htruthy).
  destruct (build_kiro_history_ok hm'
              (get_internal_model_id (model request_data)))
    as (h & Hh & Hlen).
  rewrite (build_kiro_payload_steps _ _ _ _ _ Hmsgs), HS.
  cbn [mbind result_bind]. rewrite Hhm'. cbn [mbind result_bind].
  rewrite Hh. cbn [mbind result_bind]. rewrite assemble_payload_value.
  eexists _, _, S, hm', h. do 4 (split; [done|]).
  split; [by read_payload|].
  split; [read_payload; unfold final_content; by rewrite Hrole|].
  split.
  - rewrite payload_history_value by done.
    unfold folded_history. by rewrite Hrole.
  - rewrite Hlen. unfold inject_system_prompt in Hhm'.
    destruct (str_truthy S && list_truthy hm); [|by injection Hhm' as <-].
    destruct hm as [|first rest]; [done|]. cbn [lookup list_lookup] in Hhm'.
    destruct (role first); [|by injection Hhm' as <-].
    rewrite extract_text_typed in Hhm'. by injection Hhm' as <-.
Qed.

(** ** Further properties of the content extractor *)

Lemma tool_use_entry_spec (block : PyVal) :
  tool_use_entry block =
    if block_tagged "tool_use" block
    then Some (PDict {[ "name" := block_name block;
                        "input" := block_input block;
                        "toolUseId" := block_use_id block ]})
    else None.
Proof.
  destruct block as [| | | | |d|b]; try done. by destruct b.
Qed.

(** [extract_tool_uses_from_content] gives the empty list on a value that is
    not a list; on a list it emits, in order, one record per block tagged
    ["tool_use"], in either representation, with the block's name, its input
    and its id under [toolUseId]; a key-value block without [name], [input] or
    [id] gets [""], [{}] and [""]. *)
Theorem extract_tool_uses_from_content_spec (content : PyVal) :
  match content with
  | PList blocks =>
      extract_tool_uses_from_content content =
        (λ b, PDict {[ "name" := block_name b;
                       "input" := block_input b;
                       "toolUseId" := block_use_id b ]})
        <$> filter (λ b, block_tagged "tool_use" b = true) blocks
  | _ => extract_tool_uses_from_content content = []
  end.
Proof.
  destruct content as [| | | |blocks| |]; try reflexivity.
  cbn [extract_tool_uses_from_content].
  induction blocks as [|b blocks IH]; [done|].
  rewrite filter_cons. csimpl. rewrite tool_use_entry_spec, IH.
  destruct (block_tagged "tool_use" b) eqn:E; case_decide; try congruence; done.
Qed.

Lemma str_join_from_ok_iff (i : nat) (parts : list PyVal) :
  (∃ t, str_join_from i parts = Ok t) ↔ Forall (λ v, ∃ s, v = PStr s) parts.
Proof.
  revert i. induction parts as [|v parts IH]; intros i.
  - split; [by constructor|by eexists].
  - rewrite Forall_cons, <- (IH (S i)). cbn [str_join_from].
    destruct v; try (split; [by intros [? [=]]|by intros [[? [=]] _]]).
    split.
    + intros [t Ht]. split; [by eexists|].
      destruct (str_join_from (S i) parts); [by eexists|done].
    + intros [_ [t ->]]. by eexists.
Qed.

(** The exception names the first item that is not a string. *)
Lemma str_join_from_raises (i : nat) (parts : list PyVal) (e : PyExc) :
  str_join_from i parts = Raise e →
  ∃ pre item post,
    parts = (PStr <$> pre) ++ item :: post ∧
    (∀ s, item ≠ PStr s) ∧
    e = join_error (i + length pre) item.
Proof.
  revert i e. induction parts as [|v parts IH]; intros i e; [done|].
  cbn [str_join_from].
  destruct v as [| | |s| | |];
    try (intros [= <-]; eexists [], _, parts; rewrite Nat.add_0_r;
         by repeat split).
  destruct (str_join_from (S i) parts) as [|e'] eqn:E; cbn; [done|].
  intros [= <-].
  destruct (IH _ _ E) as (pre & item & post & -> & Hitem & ->).
  exists (s :: pre), item, post. cbn [length]. by rewrite Nat.add_succ_r.
Qed.

(** On a list, [extract_text_from_content] raises exactly when some block
    tagged ["text"] holds a [text] that is not a string; blocks of other tags
    never make it raise.  What it raises is the [TypeError] of ["".join] for
    the first such block: the message carries the number of blocks tagged
    ["text"] before it and the type of its [text]. *)
Theorem extract_text_raises_iff (blocks : list PyVal) :
  ((∃ e, extract_text_from_content (PList blocks) = Raise e)
     ↔ Exists (λ b, text_not_str b = true) blocks) ∧
  ∀ e, extract_text_from_content (PList blocks) = Raise e →
    ∃ before b after,
      filter (λ b, block_tagged "text" b = true) blocks
        = before ++ b :: after ∧
      Forall (λ b, text_not_str b = false) before ∧
      text_not_str b = true ∧
      e = join_error (length before) (block_text b).
Proof.
  clear get_internal_model_id.
  cbn [extract_text_from_content]. unfold str_join. split; last first.
  { intros e He. rewrite omap_text_part in He.
    apply str_join_from_raises in He
      as (pre & item & post & Hparts & Hitem & ->).
    apply fmap_app_inv in Hparts as (before & rest & Hpre & Hrest & Hfilter).
    symmetry in Hrest.
    apply fmap_cons_inv in Hrest as (b & after & -> & _ & ->).
    exists before, b, after. split; [done|].
    assert (∀ b', b' ∈ before → ∃ s, block_text b' = PStr s) as Hstr.
    { intros b' Hin.
      assert (block_text b' ∈ PStr <$> pre) as Hin'
        by (rewrite Hpre; by apply list_elem_of_fmap_2).
      apply list_elem_of_fmap in Hin' as (s' & Hs' & _). by eexists. }
    split; [|split].
    - apply Forall_forall. intros b' Hin. unfold text_not_str.
      destruct (Hstr b' Hin) as [s' ->]. apply andb_false_r.
    - assert (b ∈ filter (λ b, block_tagged "text" b = true) blocks) as Hin
        by (rewrite Hfilter; set_solver).
      apply list_elem_of_filter in Hin as [Htag _].
      unfold text_not_str. rewrite Htag. cbn [andb].
      destruct (block_text b); try done. by destruct (Hitem s).
    - f_equal. cbn. apply (f_equal length) in Hpre.
      by rewrite !length_fmap in Hpre. }
  assert ((∃ t, str_join_from 0 (omap text_part blocks) = Ok t)
          ↔ Forall (λ b, text_not_str b = false) blocks) as Hok.
  { rewrite str_join_from_ok_iff. induction blocks as [|b blocks IH].
    - split; by constructor.
    - csimpl. rewrite text_part_spec, Forall_cons, <- IH.
      unfold text_not_str.
      destruct (block_tagged "text" b); cbn [andb]; [|naive_solver].
      rewrite Forall_cons. destruct (block_text b); naive_solver. }
  split.
  - intros [e He].
    destruct (decide (Exists (λ b, text_not_str b = true) blocks))
      as [Hex|Hnone]; [done|].
    assert (Forall (λ b, text_not_str b = false) blocks) as Hall.
    { apply Forall_forall. intros b Hin.
      destruct (text_not_str b) eqn:Hb; [|done].
      destruct Hnone. apply Exists_exists. by exists b. }
    apply Hok in Hall as [t Ht]. congruence.
  - intros Hex.
    destruct (str_join_from _ _) as [t|e] eqn:Hjoin; [|by eexists].
    assert (Forall (λ b, text_not_str b = false) blocks) as Hall
      by (apply Hok; by eexists).
    apply Exists_exists in Hex as (b & Hin & Hb).
    rewrite Forall_forall in Hall. specialize (Hall b Hin). congruence.
Qed.

Lemma string_app_assoc (s t u : string) : (s +:+ t) +:+ u = s +:+ (t +:+ u).
Proof.
  induction s as [|a s IH]; [done|].
  change (String a ((s +:+ t) +:+ u) = String a (s +:+ (t +:+ u))).
  by f_equal.
Qed.

(** Joining from another position gives the same string, or the same
    exception with the position moved. *)
Lemma str_join_from_shift (i j : nat) (parts : list PyVal) :
  match str_join_from i parts with
  | Ok t => str_join_from j parts = Ok t
  | Raise e =>
      ∃ k item, e = join_error (i + k) item ∧
                str_join_from j parts = Raise (join_error (j + k) item)
  end.
Proof.
  revert i j. induction parts as [|v parts IH]; intros i j; [done|].
  cbn [str_join_from].
  destruct v as [| | |s| | |];
    try (exists 0%nat; eexists; by rewrite !Nat.add_0_r).
  specialize (IH (S i) (S j)).
  destruct (str_join_from (S i) parts) as [t|e]; cbn.
  - by rewrite IH.
  - destruct IH as (k & item & -> & ->). exists (S k), item.
    by rewrite !Nat.add_succ_r.
Qed.

Lemma str_join_from_app (i : nat) (p1 p2 : list PyVal) :
  str_join_from i (p1 ++ p2) =
    match str_join_from i p1 with
    | Ok t1 => (λ t2, t1 +:+ t2) <$> str_join_from (i + length p1) p2
    | Raise e => Raise e
    end.
Proof.
  revert i. induction p1 as [|v p1 IH]; intros i.
  - cbn. rewrite Nat.add_0_r. by destruct (str_join_from i p2).
  - destruct v; try done. cbn [app str_join_from length].
    rewrite IH, Nat.add_succ_r.
    destruct (str_join_from (S i) p1) as [t1|]; [|done].
    cbn. destruct (str_join_from _ p2) as [t2|]; [|done].
    cbn. by rewrite string_app_assoc.
Qed.

Lemma tool_results_loop_app (l1 l2 : list PyVal) :
  tool_results_loop (l1 ++ l2) =
    (r1 ← tool_results_loop l1; r2 ← tool_results_loop l2; mret (r1 ++ r2)).
Proof.
  induction l1 as [|b l1 IH].
  - cbn. by destruct (tool_results_loop l2).
  - cbn [app tool_results_loop]. rewrite IH.
    destruct (tool_result_entry b) as [[r|e]|]; try done.
    cbn. destruct (tool_results_loop l1); [|done].
    cbn. by destruct (tool_results_loop l2).
Qed.

(** The three extractors on the concatenation of two block lists.  The text
    is the concatenation of the two texts; an exception of the first part is
    the exception of the whole, and an exception of the second part is raised
    with its item position moved by the number of blocks tagged ["text"] in
    the first.  The tool uses and the tool results are those of the first
    list followed by those of the second, an exception of either part being
    the exception of the whole. *)
Theorem extractors_of_concatenation (l1 l2 : list PyVal) :
  match extract_text_from_content (PList l1),
        extract_text_from_content (PList l2) with
  | Ok t1, Ok t2 =>
      extract_text_from_content (PList (l1 ++ l2)) = Ok (t1 +:+ t2)
  | Ok _, Raise e =>
      ∃ k item,
        e = join_error k item ∧
        extract_text_from_content (PList (l1 ++ l2)) =
          Raise (join_error
                   (length (filter (λ b, block_tagged "text" b = true) l1) + k)
                   item)
  | Raise e, _ => extract_text_from_content (PList (l1 ++ l2)) = Raise e
  end ∧
  extract_tool_uses_from_content (PList (l1 ++ l2)) =
    extract_tool_uses_from_content (PList l1) ++
    extract_tool_uses_from_content (PList l2) ∧
  extract_tool_results_from_content (PList (l1 ++ l2)) =
    (r1 ← extract_tool_results_from_content (PList l1);
     r2 ← extract_tool_results_from_content (PList l2);
     mret (r1 ++ r2)).
Proof.
  cbn [extract_text_from_content extract_tool_uses_from_content
       extract_tool_results_from_content].
  rewrite !omap_app. split; [|split; [done|apply tool_results_loop_app]].
  unfold str_join.
  rewrite <- (length_fmap block_text), <- omap_text_part, str_join_from_app.
  destruct (str_join_from 0 (omap text_part l1)) as [t1|e1]; [|done].
  pose proof (str_join_from_shift 0 (0 + length (omap text_part l1))
                (omap text_part l2)) as Hshift.
  destruct (str_join_from 0 (omap text_part l2)) as [t2|e2].
  - by rewrite Hshift.
  - destruct Hshift as (k & item & -> & ->). by exists k, item.
Qed.

(** ** The two representations of a block *)

Lemma omap_fmap_ext {A} (part : PyVal → option PyVal) (f g : A → PyVal)
    (l : list A) :
  (∀ a, part (f a) = part (g a)) → omap part (f <$> l) = omap part (g <$> l).
Proof.
  intros Hfg. induction l as [|a l IH]; [done|]. csimpl. by rewrite Hfg, IH.
Qed.

Lemma text_part_dict_of_result_block (b : ResultBlock) :
  text_part (dict_of_result_block b) = text_part (py_of_result_block b).
Proof. by destruct b. Qed.

Lemma text_part_dict_of_block (b : ContentBlock) :
  text_part (dict_of_block b) = text_part (PObj b).
Proof. by destruct b as [| | |? ? [|]]. Qed.

Lemma tool_use_entry_dict_of_block (b : ContentBlock) :
  tool_use_entry (dict_of_block b) = tool_use_entry (PObj b).
Proof. by destruct b as [| | |? ? [|]]. Qed.

Lemma tool_result_entry_dict_of_block (b : ContentBlock) :
  tool_result_entry (dict_of_block b) = tool_result_entry (PObj b).
Proof.
  destruct b as [t|i|id nm inp|tid p e]; try done.
  assert (result_text_of
            match p with
            | RStr s => PStr s
            | RBlocks l => PList (dict_of_result_block <$> l)
            end = result_text_of (py_of_result_content p)) as Htext.
  { destruct p as [s|l]; [done|].
    cbn [result_text_of py_of_result_content extract_text_from_content].
    f_equal. apply omap_fmap_ext, text_part_dict_of_result_block. }
  destruct e as [[|]|]; cbn [tool_result_entry]; rewrite <- Htext; reflexivity.
Qed.

Lemma tool_results_loop_ext {A} (f g : A → PyVal) (l : list A) :
  (∀ a, tool_result_entry (f a) = tool_result_entry (g a)) →
  tool_results_loop (f <$> l) = tool_results_loop (g <$> l).
Proof.
  intros Hfg. induction l as [|a l IH]; [done|]. csimpl. by rewrite Hfg, IH.
Qed.

(** The extractors do not depend on the representation of the blocks: on the
    key-value form of typed content they return what they return on the typed
    form. *)
Theorem extractors_agree_on_representations (c : MsgContent) :
  extract_text_from_content (dict_of_content c)
    = extract_text_from_content (py_of_content c) ∧
  extract_tool_uses_from_content (dict_of_content c)
    = extract_tool_uses_from_content (py_of_content c) ∧
  extract_tool_results_from_content (dict_of_content c)
    = extract_tool_results_from_content (py_of_content c).
Proof.
  destruct c as [s|l]; [done|].
  cbn [dict_of_content py_of_content extract_text_from_content
       extract_tool_uses_from_content extract_tool_results_from_content].
  split; [|split].
  - f_equal. apply omap_fmap_ext, text_part_dict_of_block.
  - apply omap_fmap_ext, tool_use_entry_dict_of_block.
  - apply tool_results_loop_ext, tool_result_entry_dict_of_block.
Qed.

(** ** Further properties of the history builder *)

Lemma typed_tool_uses_truthy (c : MsgContent) :
  list_truthy (extract_tool_uses_from_content (py_of_content c))
    = has_tool_use c.
Proof.
  destruct c as [s|l]; [done|].
  cbn [py_of_content extract_tool_uses_from_content has_tool_use].
  induction l as [|b l IH].
  - symmetry. apply bool_decide_eq_false. by intros ?%Exists_nil.
  - destruct b; csimpl; rewrite ?IH;
      first [ apply bool_decide_ext; rewrite Exists_cons; cbn;
              split; [by right | by intros [[=]|?]]
            | done ].
Qed.

(** A history entry is a dictionary with one key, chosen by the role, whose
    value holds the extracted text under [content].  A user entry also holds
    the model id and the origin ["AI_EDITOR"], and a [userInputMessageContext]
    with the message's tool results exactly when the message has a
    [tool_result] block; an assistant entry holds a [toolUses] list exactly
    when the message has a [tool_use] block, and neither a model id nor a
    context. *)
Theorem history_entry_shape (model_id : string) (msg : AnthropicMessage) :
  ∃ body,
    history_entry model_id msg
      = Ok (PDict {[ entry_key (role msg) := PDict body ]}) ∧
    body !! "content" = Some (PStr (content_text (content msg))) ∧
    match role msg with
    | user =>
        body !! "modelId" = Some (PStr model_id) ∧
        body !! "origin" = Some (PStr "AI_EDITOR") ∧
        body !! "userInputMessageContext" =
          (if has_tool_result (content msg)
           then Some (PDict {[ "toolResults" :=
                                 PList (typed_tool_results (content msg)) ]})
           else None) ∧
        body !! "toolUses" = None
    | assistant =>
        body !! "toolUses" =
          (if has_tool_use (content msg)
           then Some (PList (extract_tool_uses_from_content
                               (py_of_content (content msg))))
           else None) ∧
        body !! "modelId" = None ∧
        body !! "userInputMessageContext" = None
    end.
Proof.
  destruct msg as [[] c]; cbn [role content entry_key]; eexists.
  - split; [apply history_entry_user|].
    destruct (has_tool_result c); by read_payload.
  - split; [apply history_entry_assistant|].
    rewrite typed_tool_uses_truthy.
    destruct (has_tool_use c); by read_payload.
Qed.

Lemma build_kiro_history_app (m1 m2 : list AnthropicMessage)
    (model_id : string) :
  build_kiro_history_from_anthropic (m1 ++ m2) model_id =
    (h1 ← build_kiro_history_from_anthropic m1 model_id;
     h2 ← build_kiro_history_from_anthropic m2 model_id;
     mret (h1 ++ h2)).
Proof.
  induction m1 as [|msg m1 IH].
  - cbn. by destruct (build_kiro_history_from_anthropic m2 model_id).
  - cbn [app build_kiro_history_from_anthropic]. rewrite IH.
    destruct (history_entry model_id msg); [|done]. cbn.
    destruct (build_kiro_history_from_anthropic m1 model_id); [|done]. cbn.
    by destruct (build_kiro_history_from_anthropic m2 model_id).
Qed.

(** The history builder returns one entry per message, in the order of the
    messages: entry [i] is the entry of message [i].  The history of a
    concatenation is the concatenation of the histories. *)
Theorem history_follows_messages (msgs : list AnthropicMessage)
    (model_id : string) :
  (∃ history,
     build_kiro_history_from_anthropic msgs model_id = Ok history ∧
     length history = length msgs ∧
     ∀ i msg, msgs !! i = Some msg →
       ∃ entry, history !! i = Some entry ∧
                history_entry model_id msg = Ok entry) ∧
  ∀ m1 m2, msgs = m1 ++ m2 →
    ∃ h1 h2,
      build_kiro_history_from_anthropic m1 model_id = Ok h1 ∧
      build_kiro_history_from_anthropic m2 model_id = Ok h2 ∧
      build_kiro_history_from_anthropic msgs model_id = Ok (h1 ++ h2).
Proof.
  split.
  - induction msgs as [|msg msgs (history & Hh & Hlen & Hentries)].
    + exists []. by repeat split.
    + destruct (history_entry_ok model_id msg) as [entry Hentry].
      exists (entry :: history). cbn [build_kiro_history_from_anthropic].
      rewrite Hentry, Hh. split; [done|]. split; [by cbn; rewrite Hlen|].
      intros [|i] msg' Hi; cbn in Hi.
      * injection Hi as <-. by exists entry.
      * by apply Hentries.
  - intros m1 m2 ->.
    destruct (build_kiro_history_ok m1 model_id) as (h1 & Hh1 & _).
    destruct (build_kiro_history_ok m2 model_id) as (h2 & Hh2 & _).
    exists h1, h2. repeat split; try done.
    by rewrite build_kiro_history_app, Hh1, Hh2.
Qed.

(** ** Further properties of the tool conversion *)

(** [convert_anthropic_tools_to_kiro] returns [None] exactly when there is no
    tool definition ([None] or the empty list); otherwise it returns a list
    that is not empty, with one [toolSpecification] per definition, entry [i]
    naming definition [i]. *)
Theorem convert_anthropic_tools_to_kiro_spec
    (defs : option (list AnthropicTool)) :
  (convert_anthropic_tools_to_kiro defs = None
     ↔ defs = None ∨ defs = Some []) ∧
  ∀ kiro_tools, convert_anthropic_tools_to_kiro defs = Some kiro_tools →
    kiro_tools ≠ [] ∧
    ∃ tool_list,
      defs = Some tool_list ∧
      length kiro_tools = length tool_list ∧
      ∀ i tool, tool_list !! i = Some tool →
        ∃ entry,
          kiro_tools !! i = Some entry ∧
          py_path ["toolSpecification"; "name"] entry
            = Some (PStr (name tool)) ∧
          py_path ["toolSpecification"; "description"] entry
            = Some (PStr (description tool)) ∧
          py_path ["toolSpecification"; "inputSchema"; "json"] entry
            = Some (PDict (model_dump_exclude_none (input_schema tool))).
Proof.
  split.
  - destruct defs as [[|tool tool_list]|]; cbn; naive_solver.
  - intros kiro_tools Hconv.
    destruct defs as [[|tool0 tool_list]|]; try done.
    assert (kiro_tools = tool_specification <$> tool0 :: tool_list) as ->.
    { change (Some (tool_specification <$> tool0 :: tool_list)
                = Some kiro_tools) in Hconv. congruence. }
    split; [done|]. eexists. split; [done|].
    split; [by rewrite length_fmap|].
    intros i tool Hi. eexists. rewrite list_lookup_fmap, Hi.
    split; [done|]. unfold tool_specification. cbn zeta.
    repeat split; by read_payload.
Qed.

(** ** Further properties of the payload builder *)

Lemma inject_system_prompt_length system_prompt hm hm' :
  inject_system_prompt system_prompt hm = Ok hm' → length hm' = length hm.
Proof.
  unfold inject_system_prompt.
  destruct (str_truthy system_prompt && list_truthy hm);
    [|by intros [= <-]].
  destruct hm as [|first rest]; [done|]. cbn [lookup list_lookup].
  destruct (role first); [|by intros [= <-]].
  rewrite extract_text_typed. by intros [= <-].
Qed.

(** The payload of a request with messages [hm ++ [cur]], in normal form. *)
Lemma build_kiro_payload_normal_form request_data conversation_id profile_arn
    hm cur :
  messages request_data = hm ++ [cur] →
  ∃ system_prompt history,
    resolve_system_prompt (system request_data) = Ok system_prompt ∧
    length history = length hm ∧
    build_kiro_payload_from_anthropic request_data conversation_id profile_arn
      = Ok (PDict
          (cond_insert (str_truthy profile_arn) "profileArn" (PStr profile_arn)
            {[ "conversationState" := PDict
              (cond_insert
                 (list_truthy (folded_history system_prompt history cur))
                 "history"
                 (PList (folded_history system_prompt history cur))
                 {[ "chatTriggerType" := PStr "MANUAL";
                    "conversationId" := PStr conversation_id;
                    "currentMessage" := PDict {[ "userInputMessage" := PDict
                      (cond_insert
                         (negb (bool_decide
                            (current_context request_data cur = ∅)))
                         "userInputMessageContext"
                         (PDict (current_context request_data cur))
                         {[ "content" :=
                              PStr (final_content system_prompt history cur);
                            "modelId" := PStr (get_internal_model_id
                                                 (model request_data));
                            "origin" := PStr "AI_EDITOR" ]}) ]} ]}) ]})).
Proof.
  intros Hmsgs.
  destruct (resolve_system_prompt_ok (system request_data)) as [S HS].
  destruct (inject_system_prompt_ok S hm) as (hm' & Hhm' & _).
  destruct (build_kiro_history_ok hm'
              (get_internal_model_id (model request_data)))
    as (h & Hh & Hlen).
  exists S, h. split; [done|].
  split; [by rewrite Hlen; eapply inject_system_prompt_length|].
  rewrite (build_kiro_payload_steps _ _ _ _ _ Hmsgs), HS.
  cbn [mbind result_bind]. rewrite Hhm'. cbn [mbind result_bind].
  rewrite Hh. cbn [mbind result_bind]. apply assemble_payload_value.
Qed.

(** The payload is a dictionary with the key [conversationState] and, exactly
    when the profile ARN is not empty, the key [profileArn] holding it, and no
    other key.  The conversation state holds [chatTriggerType = "MANUAL"] and
    the conversation id it was given, and has no key besides these two,
    [currentMessage] and [history]. *)
Theorem payload_envelope request_data conversation_id profile_arn :
  messages request_data ≠ [] →
  ∃ top state : gmap string PyVal,
    build_kiro_payload_from_anthropic request_data conversation_id profile_arn
      = Ok (PDict top) ∧
    dom top = ({[ "conversationState" ]} ∪
               (if str_truthy profile_arn then {[ "profileArn" ]} else ∅)
               : gset string) ∧
    top !! "profileArn"
      = (if str_truthy profile_arn then Some (PStr profile_arn) else None) ∧
    top !! "conversationState" = Some (PDict state) ∧
    state !! "chatTriggerType" = Some (PStr "MANUAL") ∧
    state !! "conversationId" = Some (PStr conversation_id) ∧
    dom state ⊆ ({[ "chatTriggerType"; "conversationId"; "currentMessage";
                    "history" ]} : gset string).
Proof.
  intros Hcons.
  destruct (snoc_of_nonempty _ Hcons) as (hm & cur & Hmsgs).
  destruct (build_kiro_payload_normal_form request_data conversation_id
              profile_arn hm cur Hmsgs) as (S & h & _ & _ & ->).
  eexists _, _. split; [done|].
  split.
  { destruct (str_truthy profile_arn); cbn [cond_insert];
      rewrite ?dom_insert_L, dom_singleton_L; set_solver. }
  split; [by read_payload|]. split; [by read_payload|].
  split; [by read_payload|]. split; [by read_payload|].
  destruct (list_truthy _); cbn [cond_insert];
    rewrite ?dom_insert_L, dom_singleton_L; set_solver.
Qed.

(** The history of the payload has one entry per message before the last,
    and one more when the last message is an assistant message.  The
    [history] key is absent exactly when the request has a single message of
    role [user]. *)
Theorem payload_history_size request_data conversation_id profile_arn hm cur :
  messages request_data = hm ++ [cur] →
  ∃ payload,
    build_kiro_payload_from_anthropic request_data conversation_id profile_arn
      = Ok payload ∧
    length (payload_history payload) =
      length hm + (match role cur with assistant => 1 | user => 0 end) ∧
    (py_path ["conversationState"; "history"] payload = None
       ↔ hm = [] ∧ role cur = user).
Proof.
  intros Hmsgs.
  destruct (build_kiro_payload_normal_form request_data conversation_id
              profile_arn hm cur Hmsgs) as (S & h & _ & Hlen & ->).
  eexists. split; [done|]. split.
  - rewrite payload_history_value by done. unfold folded_history.
    destruct (role cur); [lia|]. rewrite length_app. cbn [length]. lia.
  - read_payload. unfold folded_history.
    destruct (role cur).
    + destruct h, hm; cbn in Hlen |- *; try lia; naive_solver.
    + destruct h; cbn; naive_solver.
Qed.

Lemma resolve_system_prompt_value (sys : option SystemPrompt) :
  resolve_system_prompt sys =
    Ok match sys with
       | None => ""
       | Some (SysStr s) => s
       | Some (SysBlocks l) => String.concat "" (text <$> l)
       end.
Proof.
  destruct sys as [[s|l]|]; cbn [resolve_system_prompt]; [|  |done].
  - cbn [py_of_system truthy]. by destruct (String.eqb_spec s "") as [->|].
  - destruct l as [|t l]; [done|]. cbn [py_of_system truthy].
    rewrite bool_decide_eq_false_2 by done. cbn [negb].
    apply extract_text_system.
Qed.

(** The system prompt counts by its text alone: a list of text blocks
    resolves to the concatenation of their texts, and two requests that differ
    only in system prompts of the same text get the same payload; a prompt
    whose text is empty is no prompt. *)
Theorem system_prompt_by_its_text request_data conversation_id profile_arn
    (sys1 sys2 : option SystemPrompt) :
  resolve_system_prompt sys1 = resolve_system_prompt sys2 →
  (∀ l, resolve_system_prompt (Some (SysBlocks l))
          = Ok (String.concat "" (text <$> l))) ∧
  build_kiro_payload_from_anthropic (with_system sys1 request_data)
    conversation_id profile_arn
  = build_kiro_payload_from_anthropic (with_system sys2 request_data)
      conversation_id profile_arn.
Proof.
  intros Hsame. split; [intros l; apply resolve_system_prompt_value|].
  unfold build_kiro_payload_from_anthropic, assemble_payload.
  cbn [with_system messages system model tools]. by rewrite Hsame.
Qed.

(** With at least two messages the system prompt never reaches the current
    message: the current content is the text of the last message when that
    is a user message with text, and ["Continue"] otherwise. *)
Theorem current_content_with_history request_data conversation_id
    profile_arn hm cur :
  messages request_data = hm ++ [cur] →
  hm ≠ [] →
  ∃ payload user_input,
    build_kiro_payload_from_anthropic request_data conversation_id profile_arn
      = Ok payload ∧
    current_user_input payload = Some (PDict user_input) ∧
    user_input !! "content" =
      Some (PStr match role cur with
                 | assistant => "Continue"
                 | user =>
                     if str_truthy (content_text (content cur))
                     then content_text (content cur)
                     else "Continue"
                 end).
Proof.
  intros Hmsgs Hne.
  destruct (build_kiro_payload_normal_form request_data conversation_id
              profile_arn hm cur Hmsgs) as (S & h & _ & Hlen & ->).
  eexists _, _. split; [done|]. split; [by read_payload|].
  read_payload. unfold final_content, resolved_text.
  assert (list_truthy h = true) as -> by (by destruct h, hm).
  by rewrite andb_false_r.
Qed.

(** When the first of at least two messages is an assistant message, the
    system prompt is not used at all: the payload is that of the same request
    without a system prompt. *)
Theorem system_prompt_unused_after_assistant request_data conversation_id
    profile_arn first rest cur :
  messages request_data = first :: rest ++ [cur] →
  role first = assistant →
  build_kiro_payload_from_anthropic request_data conversation_id profile_arn
  = build_kiro_payload_from_anthropic (with_system None request_data)
      conversation_id profile_arn.
Proof.
  intros Hmsgs Hrole.
  rewrite (build_kiro_payload_steps request_data _ _ (first :: rest) cur Hmsgs).
  rewrite (build_kiro_payload_steps (with_system None request_data) _ _
             (first :: rest) cur Hmsgs).
  destruct (resolve_system_prompt_ok (system request_data)) as [S ->].
  cbn [with_system system model resolve_system_prompt mbind result_bind].
  rewrite !(inject_system_prompt_assistant _ _ _ Hrole).
  cbn [mbind result_bind].
  destruct (build_kiro_history_ok (first :: rest)
              (get_internal_model_id (model request_data)))
    as (h & -> & Hlen).
  cbn [mbind result_bind]. rewrite !assemble_payload_value.
  assert (list_truthy h = true) as Hh by (by destruct h).
  unfold folded_history, final_content, resolved_text, current_context.
  cbn [with_system tools]. by rewrite Hh, !andb_false_r.
Qed.

(** The current [userInputMessage] holds the model id given by
    [get_internal_model_id] and the origin ["AI_EDITOR"], and has no key
    besides [content], [modelId], [origin] and [userInputMessageContext]; a
    context, when there is one, is not empty and has no key besides [tools]
    and [toolResults]. *)
Theorem current_user_input_keys request_data conversation_id profile_arn :
  messages request_data ≠ [] →
  ∃ payload user_input,
    build_kiro_payload_from_anthropic request_data conversation_id profile_arn
      = Ok payload ∧
    current_user_input payload = Some (PDict user_input) ∧
    user_input !! "modelId"
      = Some (PStr (get_internal_model_id (model request_data))) ∧
    user_input !! "origin" = Some (PStr "AI_EDITOR") ∧
    dom user_input ⊆ ({[ "content"; "modelId"; "origin";
                         "userInputMessageContext" ]} : gset string) ∧
    ∀ v, user_input !! "userInputMessageContext" = Some v →
      ∃ context : gmap string PyVal,
        v = PDict context ∧ context ≠ ∅ ∧
        dom context ⊆ ({[ "tools"; "toolResults" ]} : gset string).
Proof.
  intros Hcons.
  destruct (snoc_of_nonempty _ Hcons) as (hm & cur & Hmsgs).
  destruct (build_kiro_payload_normal_form request_data conversation_id
              profile_arn hm cur Hmsgs) as (S & h & _ & _ & ->).
  eexists _, _. split; [done|]. split; [by read_payload|].
  split; [by read_payload|]. split; [by read_payload|]. split.
  - destruct (negb _); cbn [cond_insert];
      rewrite ?dom_insert_L, dom_singleton_L; set_solver.
  - intros v. read_payload. case_bool_decide as Hctx; cbn [negb]; [done|].
    intros [= <-]. eexists. split; [done|]. split; [done|].
    unfold current_context, cond_insert.
    repeat match goal with |- context [if ?b then _ else _] => destruct b end;
      rewrite ?dom_insert_L, ?dom_empty_L; set_solver.
Qed.

(** The tool results of the last message go to the current context exactly
    when that message is a user message with a [tool_result] block, and are
    then the results extracted from it; a last message of role [assistant]
    never gives [toolResults]. *)
Theorem current_tool_results request_data conversation_id profile_arn hm cur :
  messages request_data = hm ++ [cur] →
  ∃ payload user_input,
    build_kiro_payload_from_anthropic request_data conversation_id profile_arn
      = Ok payload ∧
    current_user_input payload = Some (PDict user_input) ∧
    match role cur, has_tool_result (content cur) with
    | user, true =>
        ∃ context results,
          user_input !! "userInputMessageContext" = Some (PDict context) ∧
          extract_tool_results_from_content (py_of_content (content cur))
            = Ok results ∧
          results ≠ [] ∧
          context !! "toolResults" = Some (PList results)
    | _, _ =>
        ∀ context,
          user_input !! "userInputMessageContext" = Some (PDict context) →
          context !! "toolResults" = None
    end.
Proof.
  intros Hmsgs.
  destruct (build_kiro_payload_normal_form request_data conversation_id
              profile_arn hm cur Hmsgs) as (S & h & _ & _ & ->).
  eexists _, _. split; [done|]. split; [by read_payload|].
  assert (∀ context,
    cond_insert
      (negb (bool_decide (current_context request_data cur = ∅)))
      "userInputMessageContext" (PDict (current_context request_data cur))
      ({[ "content" := PStr (final_content S h cur);
          "modelId" := PStr (get_internal_model_id (model request_data));
          "origin" := PStr "AI_EDITOR" ]} : gmap string PyVal)
      !! "userInputMessageContext" = Some (PDict context) →
    context = current_context request_data cur) as Hcontext.
  { intros context. read_payload. destruct (negb _); [|done].
    by intros [= <-]. }
  destruct (role cur) eqn:Hrole; [destruct (has_tool_result _) eqn:Hres|].
  - exists (current_context request_data cur), (typed_tool_results (content cur)).
    assert (current_context request_data cur ≠ ∅) as Hne.
    { unfold current_context. rewrite Hrole, Hres. intros Hempty.
      by apply cond_insert_empty in Hempty as [? _]. }
    split; [read_payload; by rewrite bool_decide_eq_false_2|].
    split; [apply extract_tool_results_typed|]. split.
    + intros Hnil. pose proof (typed_tool_results_truthy (content cur)) as Ht.
      by rewrite Hnil, Hres in Ht.
    + unfold current_context. rewrite Hrole, Hres. by read_payload.
  - intros context ->%Hcontext. unfold current_context.
    rewrite Hrole, Hres. cbn [cond_insert]. by read_payload.
  - intros context ->%Hcontext. unfold current_context.
    rewrite Hrole. cbn [cond_insert]. by read_payload.
Qed.

End Converters.

(** ** The properties at the sample requests *)

(** C8 at [mixed_blocks]: the two text blocks give ["ab"]. *)
Lemma extract_text_from_content_cases_witness :
  extract_text_from_content repr_stub (PList mixed_blocks) = Ok "ab".
Proof.
  apply (proj2 (extract_text_from_content_cases repr_stub
                  (PList mixed_blocks)) ["a"; "b"]).
  vm_compute. reflexivity.
Defined.

(** C8, counterexample: on the list of one block tagged ["text"] whose [text]
    is [None], no string is returned: ["".join] raises on item 0. *)
Lemma text_field_none_raises :
  block_tagged "text" null_text = true ∧
  block_text null_text = PNone ∧
  extract_text_from_content repr_stub (PList [null_text]) =
    Raise (TypeError
             "sequence item 0: expected str instance, NoneType found") ∧
  ∀ t, extract_text_from_content repr_stub (PList [null_text]) ≠ Ok t.
Proof.
  repeat split; try (vm_compute; reflexivity).
  intros t Ht. vm_compute in Ht. discriminate Ht.
Qed.

(** C7 at [mixed_blocks]: the two tool results, the first one an error. *)
Lemma extract_tool_results_from_content_spec_witness :
  extract_tool_results_from_content repr_stub (PList mixed_blocks) =
    Ok [ PDict {[ "content" := PList [PDict {[ "text" := PStr "out" ]}];
                  "status" := PStr "error";
                  "toolUseId" := PStr "t0" ]};
         PDict {[ "content" := PList [PDict {[ "text" := PStr "found" ]}];
                  "status" := PStr "success";
                  "toolUseId" := PStr "t1" ]} ].
Proof.
  apply (extract_tool_results_from_content_spec repr_stub (PList mixed_blocks)
           ["out"; "found"]).
  vm_compute. repeat constructor.
Defined.

(** C7, counterexample: [plain_result] alone gives its record; followed by a
    tool result whose list-form payload holds a text block with [None] for
    [text], the reduction of that payload raises and no record is returned,
    not even the first. *)
Lemma tool_result_null_payload_raises :
  extract_tool_results_from_content repr_stub (PList [plain_result]) =
    Ok [ PDict {[ "content" := PList [PDict {[ "text" := PStr "found" ]}];
                  "status" := PStr "success";
                  "toolUseId" := PStr "t1" ]} ] ∧
  block_tagged "tool_result" null_payload_result = true ∧
  extract_tool_results_from_content repr_stub
    (PList [plain_result; null_payload_result]) =
    Raise (TypeError
             "sequence item 0: expected str instance, NoneType found") ∧
  ∀ records,
    extract_tool_results_from_content repr_stub
      (PList [plain_result; null_payload_result]) ≠ Ok records.
Proof.
  repeat split; try (vm_compute; reflexivity).
  intros records Hrecords. vm_compute in Hrecords. discriminate Hrecords.
Qed.

(** C5 at the empty and at the single-message request. *)
Lemma invalid_request_iff_no_messages_witness :
  build_kiro_payload_from_anthropic repr_stub same_model_id
    (request_of [] None None) "c1" ""
    = Raise (ValueError "No messages provided") ∧
  ∃ payload,
    build_kiro_payload_from_anthropic repr_stub same_model_id
      single_user_request "c1" "" = Ok payload.
Proof.
  split.
  - by apply (invalid_request_iff_no_messages repr_stub same_model_id
                (request_of [] None None) "c1" "").
  - by apply (invalid_request_iff_no_messages repr_stub same_model_id
                single_user_request "c1" "").
Defined.

(** C4 at a request whose only message is empty: ["Continue"]. *)
Lemma current_message_content_not_empty_witness :
  ∃ payload user_input,
    build_kiro_payload_from_anthropic repr_stub same_model_id
      (request_of [user_says ""] None None) "c1" "" = Ok payload ∧
    current_user_input payload = Some (PDict user_input) ∧
    user_input !! "content" = Some (PStr "Continue").
Proof.
  destruct (current_message_content_not_empty repr_stub same_model_id
              (request_of [user_says ""] None None) "c1" "")
    as (payload & user_input & c & Hbuild & Hcur & Hcontent & _ & Hres);
    [done|].
  destruct (Hres "" [] (user_says "")) as [Hempty _]; [done..|].
  exists payload, user_input. split; [done|]. split.
  - unfold current_user_input. cbn [py_path] in Hcur |- *.
    destruct (py_get "conversationState" payload) as [cs|]; [|done].
    destruct (py_get "currentMessage" cs) as [cm|]; [|done].
    injection Hcur as ->. reflexivity.
  - by rewrite Hcontent, Hempty.
Defined.

(** C1 at the single-message request: ["S\n\nHi"]. *)
Lemma system_prompt_prefixes_single_message_witness :
  ∃ payload user_input,
    build_kiro_payload_from_anthropic repr_stub same_model_id
      single_user_request "c1" "" = Ok payload ∧
    current_user_input payload = Some (PDict user_input) ∧
    user_input !! "content" = Some (PStr ("S" +:+ nl2 +:+ "Hi")).
Proof.
  destruct (system_prompt_prefixes_single_message repr_stub same_model_id
              single_user_request "c1" "" "S" (user_says "Hi") "Hi")
    as (payload & user_input & Hbuild & Hcur & Hcontent & _);
    [reflexivity | done | reflexivity | reflexivity |].
  by exists payload, user_input.
Defined.

(** C1 as stated fails at [assistant_first_request]: the system prompt is
    not empty and the first history message is not a user message, and the
    final current content is ["Hi"], without the prompt. *)
Lemma system_prompt_dropped_after_assistant_history :
  resolve_system_prompt repr_stub (system assistant_first_request) = Ok "S" ∧
  "S" ≠ "" ∧
  split_history (messages assistant_first_request) !! 0%nat
    = Some (assistant_says "A") ∧
  role (assistant_says "A") ≠ user ∧
  extract_text_from_content repr_stub
    (py_of_content (content (user_says "Hi"))) = Ok "Hi" ∧
  ∃ payload user_input,
    build_kiro_payload_from_anthropic repr_stub same_model_id
      assistant_first_request "c1" "" = Ok payload ∧
    current_user_input payload = Some (PDict user_input) ∧
    user_input !! "content" = Some (PStr "Hi") ∧
    user_input !! "content" ≠ Some (PStr ("S" +:+ nl2 +:+ "Hi")).
Proof.
  repeat (split; [done|]).
  eexists _, _. split; [vm_compute; reflexivity|].
  split; [vm_compute; reflexivity|].
  split; [vm_compute; reflexivity|].
  vm_compute. discriminate.
Qed.

(** C2 at [trailing_tool_use_request]: the trailing assistant message calls
    a tool; the entry it is folded into has the text and no [toolUses],
    whereas the history builder gives the same message a [toolUses] list. *)
Theorem trailing_assistant_tool_uses_dropped :
  ∃ payload user_input,
    build_kiro_payload_from_anthropic repr_stub same_model_id
      trailing_tool_use_request "c1" "" = Ok payload ∧
    current_user_input payload = Some (PDict user_input) ∧
    user_input !! "content" = Some (PStr "Continue") ∧
    payload_history payload =
      [ PDict {[ "userInputMessage" := PDict
                   {[ "content" := PStr "Hi";
                      "modelId" := PStr "claude-sonnet-4";
                      "origin" := PStr "AI_EDITOR" ]} ]};
        PDict {[ "assistantResponseMessage" :=
                   PDict {[ "content" := PStr "Hello" ]} ]} ] ∧
    history_entry repr_stub "claude-sonnet-4" calling_assistant =
      Ok (PDict {[ "assistantResponseMessage" := PDict
            {[ "content" := PStr "Hello";
               "toolUses" := PList
                 [PDict {[ "name" := PStr "search";
                           "input" := PDict {[ "q" := PStr "x" ]};
                           "toolUseId" := PStr "t1" ]}] ]} ]}).
Proof.
  eexists _, _. split; [vm_compute; reflexivity|].
  repeat split; vm_compute; reflexivity.
Qed.

(** C3 at [three_turn_request]. *)
Lemma system_prompt_injected_into_history_witness :
  ∃ payload,
    build_kiro_payload_from_anthropic repr_stub same_model_id
      three_turn_request "c1" "" = Ok payload ∧
    payload_history payload =
      [ PDict {[ "userInputMessage" := PDict
                   {[ "content" := PStr ("S" +:+ nl2 +:+ "U");
                      "modelId" := PStr "claude-sonnet-4";
                      "origin" := PStr "AI_EDITOR" ]} ]};
        PDict {[ "assistantResponseMessage" :=
                   PDict {[ "content" := PStr "A" ]} ]} ].
Proof.
  destruct (system_prompt_injected_into_history repr_stub same_model_id
              three_turn_request "c1" "" "S" (user_says "U")
              [assistant_says "A"] (user_says "Hi") "U")
    as (payload & later & Hbuild & Hlater & Hhistory);
    [reflexivity | done | reflexivity | reflexivity | reflexivity |].
  exists payload. split; [done|]. rewrite Hhistory.
  injection Hlater as <-. reflexivity.
Defined.

(** C10 at [result_first_request]. *)
Lemma injected_first_message_loses_tool_results_witness :
  ∃ payload user_input,
    build_kiro_payload_from_anthropic repr_stub same_model_id
      result_first_request "c1" "" = Ok payload ∧
    payload_history payload !! 0%nat
      = Some (PDict {[ "userInputMessage" := PDict user_input ]}) ∧
    user_input !! "userInputMessageContext" = None.
Proof.
  destruct (injected_first_message_loses_tool_results repr_stub same_model_id
              result_first_request "c1" "" "S" result_first
              [assistant_says "A"] (user_says "Hi"))
    as (_ & Hentry & _);
    [reflexivity | done | reflexivity | reflexivity | reflexivity |].
  exact Hentry.
Defined.

(** C6 at [tools_request]: the schema of [search_tool] under
    [inputSchema.json], with its nested [properties] and [required]. *)
Lemma tools_in_current_context_witness :
  ∃ payload user_input context,
    build_kiro_payload_from_anthropic repr_stub same_model_id
      tools_request "c1" "" = Ok payload ∧
    current_user_input payload = Some (PDict user_input) ∧
    user_input !! "userInputMessageContext" = Some (PDict context) ∧
    context !! "tools" = Some (PList
      [PDict {[ "toolSpecification" := PDict
         {[ "name" := PStr "search";
            "description" := PStr "Search the web";
            "inputSchema" := PDict {[ "json" := PDict
               {[ "type" := PStr "object";
                  "properties" :=
                    PDict {[ "q" := PDict {[ "type" := PStr "string" ]} ]};
                  "required" := PList [PStr "q"] ]} ]} ]} ]}]).
Proof.
  destruct (tools_in_current_context repr_stub same_model_id tools_request
              "c1" "")
    as (payload & user_input & Hbuild & Hcur & Htools & _); [done|].
  destruct (Htools [search_tool]) as (context & Hctx & Hlist & _);
    [reflexivity | done |].
  exists payload, user_input, context. repeat (split; [done|]).
  rewrite Hlist. vm_compute. reflexivity.
Defined.

(** C6 as stated fails at [nullable_tools_request]: the schema object has the
    key ["default"] with value [None], and the dictionary under
    [inputSchema.json] is [{"type": "object"}], without that key. *)
Lemma none_valued_schema_key_omitted :
  tools nullable_tools_request = Some [nullable_tool] ∧
  schema_object (input_schema nullable_tool) !! "default" = Some PNone ∧
  ∃ payload user_input context,
    build_kiro_payload_from_anthropic repr_stub same_model_id
      nullable_tools_request "c1" "" = Ok payload ∧
    current_user_input payload = Some (PDict user_input) ∧
    user_input !! "userInputMessageContext" = Some (PDict context) ∧
    context !! "tools" = Some (PList
      [PDict {[ "toolSpecification" := PDict
         {[ "name" := PStr "lookup";
            "description" := PStr "Look a key up";
            "inputSchema" := PDict {[ "json" :=
               PDict {[ "type" := PStr "object" ]} ]} ]} ]}]) ∧
    ({[ "type" := PStr "object" ]} : gmap string PyVal)
      ≠ schema_object (input_schema nullable_tool).
Proof.
  split; [reflexivity|]. split; [vm_compute; reflexivity|].
  eexists _, _, _. split; [vm_compute; reflexivity|].
  split; [vm_compute; reflexivity|].
  split; [vm_compute; reflexivity|].
  split; [vm_compute; reflexivity|].
  intros Heq. apply (f_equal (λ m, m !! "default")) in Heq.
  vm_compute in Heq. discriminate.
Qed.

(** C9 at [sample_store]. *)
Lemma caller_messages_not_mutated_witness :
  ∃ h',
    build_kiro_payload_on_heap repr_stub same_model_id two_turn_request
      1%positive "c1" "" sample_store
    = (build_kiro_payload_from_anthropic repr_stub same_model_id
         two_turn_request "c1" "", h') ∧
    sample_store ⊆ h'.
Proof.
  destruct (caller_messages_not_mutated repr_stub same_model_id
              two_turn_request 1%positive "c1" "" sample_store)
    as (h' & Hrun & Hsub & _).
  - exists [2%positive; 3%positive]. split; [reflexivity|].
    repeat constructor.
  - by exists h'.
Defined.

(** ** The further properties at the sample requests *)

(** A text block whose [text] is [None], after one whose text is a string,
    makes the extraction raise, and the exception names item 1 and
    [NoneType]. *)
Lemma extract_text_raises_iff_witness :
  ∃ e before b after,
    extract_text_from_content repr_stub
      (PList [PObj (BText {| text := "a" |}); null_text]) = Raise e ∧
    filter (λ b, block_tagged "text" b = true)
      [PObj (BText {| text := "a" |}); null_text] = before ++ b :: after ∧
    text_not_str b = true ∧
    e = join_error (length before) (block_text b).
Proof.
  destruct (extract_text_raises_iff repr_stub
              [PObj (BText {| text := "a" |}); null_text]) as [Hiff Hexc].
  destruct (proj2 Hiff) as [e He];
    [apply Exists_cons_tl, Exists_cons_hd; reflexivity|].
  destruct (Hexc e He) as (before & b & after & Hfilter & _ & Hb & ->).
  by exists (join_error (length before) (block_text b)), before, b, after.
Defined.

Lemma history_follows_messages_witness :
  ∃ history,
    build_kiro_history_from_anthropic repr_stub
      [user_says "Hi"; calling_assistant] "m1" = Ok history ∧
    length history = 2%nat.
Proof.
  destruct (proj1 (history_follows_messages repr_stub
                     [user_says "Hi"; calling_assistant] "m1"))
    as (history & Hhistory & Hlen & _).
  by exists history.
Defined.

Lemma convert_anthropic_tools_to_kiro_spec_witness :
  ∃ kiro_tools,
    convert_anthropic_tools_to_kiro (Some [search_tool]) = Some kiro_tools ∧
    kiro_tools ≠ [].
Proof.
  eexists. split; [reflexivity|].
  apply (proj2 (convert_anthropic_tools_to_kiro_spec (Some [search_tool]))
           _ eq_refl).
Defined.

Lemma payload_envelope_witness :
  ∃ top : gmap string PyVal,
    build_kiro_payload_from_anthropic repr_stub same_model_id
      answering_request "c1" "arn:profile" = Ok (PDict top) ∧
    top !! "profileArn" = Some (PStr "arn:profile").
Proof.
  destruct (payload_envelope repr_stub same_model_id answering_request
              "c1" "arn:profile")
    as (top & state & Hbuild & _ & Harn & _); [done|].
  by exists top.
Defined.

Lemma payload_history_size_witness :
  ∃ payload,
    build_kiro_payload_from_anthropic repr_stub same_model_id
      answering_request "c1" "" = Ok payload ∧
    length (payload_history payload) = 2%nat.
Proof.
  destruct (payload_history_size repr_stub same_model_id answering_request
              "c1" "" [user_says "Hi"; calling_assistant] answering_user)
    as (payload & Hbuild & Hlen & _); [reflexivity|].
  by exists payload.
Defined.

(** The prompt ["AB"] as a string and as two text blocks. *)
Lemma system_prompt_by_its_text_witness :
  build_kiro_payload_from_anthropic repr_stub same_model_id
    (with_system (Some (SysStr "AB")) single_user_request) "c1" ""
  = build_kiro_payload_from_anthropic repr_stub same_model_id
      (with_system (Some (SysBlocks [{| text := "A" |}; {| text := "B" |}]))
         single_user_request) "c1" "".
Proof.
  apply (system_prompt_by_its_text repr_stub same_model_id
           single_user_request "c1" ""
           (Some (SysStr "AB"))
           (Some (SysBlocks [{| text := "A" |}; {| text := "B" |}]))).
  reflexivity.
Defined.

Lemma current_content_with_history_witness :
  ∃ payload user_input,
    build_kiro_payload_from_anthropic repr_stub same_model_id
      three_turn_request "c1" "" = Ok payload ∧
    current_user_input payload = Some (PDict user_input) ∧
    user_input !! "content" = Some (PStr "Hi").
Proof.
  apply (current_content_with_history repr_stub same_model_id
           three_turn_request "c1" ""
           [user_says "U"; assistant_says "A"] (user_says "Hi"));
    [reflexivity|done].
Defined.

Lemma system_prompt_unused_after_assistant_witness :
  build_kiro_payload_from_anthropic repr_stub same_model_id
    assistant_first_request "c1" ""
  = build_kiro_payload_from_anthropic repr_stub same_model_id
      (with_system None assistant_first_request) "c1" "".
Proof.
  apply (system_prompt_unused_after_assistant repr_stub same_model_id
           assistant_first_request "c1" "" (assistant_says "A") []
           (user_says "Hi")); reflexivity.
Defined.

Lemma current_user_input_keys_witness :
  ∃ payload user_input,
    build_kiro_payload_from_anthropic repr_stub same_model_id
      tools_request "c1" "" = Ok payload ∧
    current_user_input payload = Some (PDict user_input) ∧
    user_input !! "modelId" = Some (PStr "claude-sonnet-4").
Proof.
  destruct (current_user_input_keys repr_stub same_model_id tools_request
              "c1" "")
    as (payload & user_input & Hbuild & Hcur & Hmodel & _); [done|].
  by exists payload, user_input.
Defined.

(** The tool result of [answering_user] in the current context. *)
Lemma current_tool_results_witness :
  ∃ payload user_input context,
    build_kiro_payload_from_anthropic repr_stub same_model_id
      answering_request "c1" "" = Ok payload ∧
    current_user_input payload = Some (PDict user_input) ∧
    user_input !! "userInputMessageContext" = Some (PDict context) ∧
    context !! "toolResults" = Some (PList
      [PDict {[ "content" := PList [PDict {[ "text" := PStr "found" ]}];
                "status" := PStr "success";
                "toolUseId" := PStr "t1" ]}]).
Proof.
  destruct (current_tool_results repr_stub same_model_id answering_request
              "c1" "" [user_says "Hi"; calling_assistant] answering_user)
    as (payload & user_input & Hbuild & Hcur & context & results
          & Hcontext & Hresults & _ & Hlist); [reflexivity|].
  exists payload, user_input, context. repeat (split; [done|]).
  rewrite Hlist. injection Hresults as <-. reflexivity.
Defined.

Lemma trailing_assistant_folded_witness :
  ∃ payload user_input,
    build_kiro_payload_from_anthropic repr_stub same_model_id
      trailing_tool_use_request "c1" "" = Ok payload ∧
    current_user_input payload = Some (PDict user_input) ∧
    user_input !! "content" = Some (PStr "Continue") ∧
    payload_history payload =
      [ PDict {[ "userInputMessage" :=
          PDict {[ "content" := PStr "Hi";
                   "modelId" := PStr "claude-sonnet-4";
                   "origin" := PStr "AI_EDITOR" ]} ]};
        PDict {[ "assistantResponseMessage" :=
          PDict {[ "content" := PStr "Hello" ]} ]} ].
Proof.
  destruct (trailing_assistant_folded repr_stub same_model_id
              trailing_tool_use_request "c1" "" [user_says "Hi"]
              calling_assistant)
    as (payload & user_input & system_prompt & injected & earlier
          & Hsystem & Hinjected & Hearlier & Hbuild & Hcur & Hcontent
          & Hhistory & Hlen); [reflexivity..|].
  exists payload, user_input. repeat (split; [done|]).
  injection Hsystem as <-. injection Hinjected as <-.
  injection Hearlier as <-. rewrite Hhistory. vm_compute. reflexivity.
Defined.
